(** * Network activators of cloud-init: selection and dispatch

    A shallow embedding of [cloudinit/net/activators.py].  The module
    runs external commands, probes the machine for installed network
    back ends and writes log lines; all three are modelled explicitly:

    - the outside world is a record of oracles ([world]) that answer
      every external call as a function of the calls made so far;
    - the program state ([state]) holds the trace of external calls
      with their answers and the log lines written so far;
    - Python exceptions are a result constructor ([Raise]); the state
      reached when an exception is raised is kept, as in Python. *)

From Stdlib Require Import String Ascii List Bool Arith Lia.
Import ListNotations.
Local Open Scope string_scope.
Local Open Scope list_scope.
Local Open Scope nat_scope.

(** ** Python strings

    A Python [str] is modelled as a Rocq [string] whose characters are
    the code points below 256. *)

Module PyStr.

Local Open Scope string_scope.

Definition squote : ascii := ascii_of_nat 39.
Definition dquote : ascii := ascii_of_nat 34.
Definition backslash : ascii := ascii_of_nat 92.

Fixpoint contains (c : ascii) (s : string) : bool :=
  match s with
  | EmptyString => false
  | String d s' => Ascii.eqb c d || contains c s'
  end.

Definition hex_digit (n : nat) : ascii :=
  if (n <? 10)%nat then ascii_of_nat (48 + n) else ascii_of_nat (87 + n).

(** [\xhh], two lowercase hexadecimal digits. *)
Definition hex_escape (c : ascii) : string :=
  let n := nat_of_ascii c in
  String backslash
    (String "x" (String (hex_digit (n / 16)) (String (hex_digit (n mod 16)) ""))).

(** [str.isprintable] on the code points 128..255. *)
Definition isprintable_high (n : nat) : bool :=
  ((161 <=? n) && negb (n =? 173))%nat.

(** One character of [repr(s)], for the chosen quote character. *)
Definition repr_char (quote : ascii) (c : ascii) : string :=
  let n := nat_of_ascii c in
  if Ascii.eqb c quote || Ascii.eqb c backslash then
    String backslash (String c "")
  else if (n =? 9)%nat then String backslash "t"
  else if (n =? 10)%nat then String backslash "n"
  else if (n =? 13)%nat then String backslash "r"
  else if ((n <? 32) || (n =? 127))%nat then hex_escape c
  else if (n <? 127)%nat then String c ""
  else if isprintable_high n then String c ""
  else hex_escape c.

Fixpoint repr_body (quote : ascii) (s : string) : string :=
  match s with
  | EmptyString => ""
  | String c s' => repr_char quote c ++ repr_body quote s'
  end.

(** [repr(s)] for a [str]: single quotes, unless the string holds a
    single quote and no double quote. *)
Definition repr (s : string) : string :=
  let quote :=
    if contains squote s && negb (contains dquote s) then dquote else squote in
  String quote (repr_body quote s ++ String quote "").

Fixpoint join (sep : string) (l : list string) : string :=
  match l with
  | [] => ""
  | [x] => x
  | x :: xs => x ++ sep ++ join sep xs
  end.

(** [repr(l)] (and [str(l)], and [f"{l}"]) for a list of [str]. *)
Definition repr_list (l : list string) : string :=
  "[" ++ join ", " (map repr l) ++ "]".

(** [str.isspace] on one code point below 256. *)
Definition isspace (c : ascii) : bool :=
  let n := nat_of_ascii c in
  (((9 <=? n) && (n <=? 13)) || ((28 <=? n) && (n <=? 32))
   || (n =? 133) || (n =? 160))%nat.

(** [s.rstrip()]: drop the trailing whitespace. *)
Fixpoint rstrip (s : string) : string :=
  match s with
  | EmptyString => ""
  | String c s' =>
      match rstrip s' with
      | EmptyString => if isspace c then "" else String c ""
      | r => String c r
      end
  end.

(** [bool(s)] and [len(s) != 0]. *)
Definition truthy (s : string) : bool :=
  match s with EmptyString => false | _ => true end.

End PyStr.

(** [x in l] for a list of [str]. *)
Definition str_in (x : string) (l : list string) : bool :=
  existsb (String.eqb x) l.

(** ** Exceptions, external calls, log lines *)

Inductive exn : Type :=
| ProcessExecutionError (cmd : list string)   (* subp.ProcessExecutionError, with e.cmd *)
| ValueError (msg : string)
| NoActivatorException (msg : string)
| NotImplementedError
| KeyError (key : string)
| OtherError (name : string).                 (* any other exception type *)

Definition is_ProcessExecutionError (e : exn) : bool :=
  match e with ProcessExecutionError _ => true | _ => false end.

(** What a call of [subp.subp] (or of an [Iproute2] link operation)
    does: it returns [(stdout, stderr)] or raises. *)
Inductive outcome : Type :=
| Returned (out err : string)
| Raised (e : exn).

(** The renderer modules whose [available()] the activators consult. *)
Inductive net_module : Type := eni | netplan | network_manager | networkd.

(** One external call together with the answer it got. *)
Inductive event : Type :=
| EvSubp (cmd : list string) (r : outcome)                    (* subp.subp(cmd) *)
| EvLinkUp (dev : string) (r : outcome)                       (* Iproute2.link_up(dev) *)
| EvLinkDown (dev : string) (r : outcome)                     (* Iproute2.link_down(dev) *)
| EvAvailable (m : net_module) (r : bool)                     (* <module>.available() *)
| EvWhich (prog : string) (search : list string) (r : option string)  (* subp.which *)
| EvConnFilename (dev : string) (r : option string).          (* network_manager.conn_filename *)

(** The classes of the module, as values. *)
Inductive activator : Type :=
| IfUpDownActivator
| IfConfigActivator
| NetworkManagerActivator
| NetplanActivator
| NetworkdActivator.

Inductive log_arg : Type :=
| AStr (s : string)
| AList (l : list string)
| ACls (c : activator).

Inductive log_call : Type :=
| LOG_warning (fmt : string) (args : list log_arg)
| LOG_debug (fmt : string) (args : list log_arg)
| util_logexc (fmt : string) (cmd : list string).

(** The machine the program runs on: what [activators.py] calls but
    does not define ([subp], [Iproute2], the renderer modules) is a
    parameter.  Every oracle sees the trace of the calls made before
    it, so the same call may be answered differently at different
    times.  The availability probes and the connection-file look-up
    return a value, as their signatures say; the commands may raise. *)
Record world : Type := {
  w_subp : list event -> list string -> outcome;
  w_link_up : list event -> string -> outcome;
  w_link_down : list event -> string -> outcome;
  w_available : list event -> net_module -> bool;
  w_which : list event -> string -> list string -> option string;
  w_conn_filename : list event -> string -> option string
}.

Record state : Type := {
  trace : list event;
  log : list log_call
}.

Definition initial : state := {| trace := []; log := [] |}.

Definition add_event (e : event) (st : state) : state :=
  {| trace := trace st ++ [e]; log := log st |}.

Definition add_log (l : log_call) (st : state) : state :=
  {| trace := trace st; log := log st ++ [l] |}.

(** ** The monad of the embedding

    A computation reads the world, transforms the state and returns a
    value or raises. *)

Inductive result (A : Type) : Type :=
| Ret (a : A)
| Raise (e : exn).
Arguments Ret {A} a.
Arguments Raise {A} e.

Definition M (A : Type) : Type := world -> state -> result A * state.

Definition ret {A} (a : A) : M A := fun _ st => (Ret a, st).

Definition raise {A} (e : exn) : M A := fun _ st => (Raise e, st).

Definition bind {A B} (m : M A) (k : A -> M B) : M B :=
  fun w st =>
    match m w st with
    | (Ret a, st') => k a w st'
    | (Raise e, st') => (Raise e, st')
    end.

(** [try: body / except <class>: handler]: [handler e] is [Some h] when
    the except clause matches [e]. *)
Definition try_except {A} (body : M A) (handler : exn -> option (M A)) : M A :=
  fun w st =>
    match body w st with
    | (Ret a, st') => (Ret a, st')
    | (Raise e, st') =>
        match handler e with
        | Some h => h w st'
        | None => (Raise e, st')
        end
    end.

Declare Scope monad_scope.
Delimit Scope monad_scope with monad.
Notation "x <- m ;; k" := (bind m (fun x => k))
  (at level 61, m at next level, right associativity) : monad_scope.
Notation "m ;; k" := (bind m (fun _ => k))
  (at level 61, right associativity) : monad_scope.
Local Open Scope monad_scope.

Definition emit (l : log_call) : M unit := fun _ st => (Ret tt, add_log l st).

(** An external call that returns [(stdout, stderr)] or raises. *)
Definition external (oracle : world -> list event -> outcome)
    (ev : outcome -> event) : M (string * string) :=
  fun w st =>
    let r := oracle w (trace st) in
    (match r with
     | Returned out err => Ret (out, err)
     | Raised e => Raise e
     end, add_event (ev r) st).

(** An external call that returns a value and does not raise. *)
Definition probe {A} (oracle : world -> list event -> A) (ev : A -> event) : M A :=
  fun w st =>
    let r := oracle w (trace st) in (Ret r, add_event (ev r) st).

(** [all(f(x) for x in l)]: the generator is consumed lazily, so [f] is
    not called after the first false answer. *)
Fixpoint all {A} (f : A -> M bool) (l : list A) : M bool :=
  match l with
  | [] => ret true
  | x :: xs => b <- f x ;; if b then all f xs else ret false
  end.

(** [next((x for x in l if p(x)), None)]. *)
Fixpoint next_where {A} (p : A -> M bool) (l : list A) : M (option A) :=
  match l with
  | [] => ret None
  | x :: xs => b <- p x ;; if b then ret (Some x) else next_where p xs
  end.

(** [[f(x) for x in l]]. *)
Fixpoint list_comp {A B} (f : A -> M B) (l : list A) : M (list B) :=
  match l with
  | [] => ret []
  | x :: xs => y <- f x ;; ys <- list_comp f xs ;; ret (y :: ys)
  end.

(** [d[key]] for a dict with [str] keys, kept in insertion order. *)
Fixpoint dict_get {V} (d : list (string * V)) (key : string) : option V :=
  match d with
  | [] => None
  | (k, v) :: d' => if String.eqb key k then Some v else dict_get d' key
  end.

Definition getitem {V} (d : list (string * V)) (key : string) : M V :=
  match dict_get d key with
  | Some v => ret v
  | None => raise (KeyError key)
  end.

(** ** The collaborators the module imports *)

Module subp.

Definition subp (cmd : list string) : M (string * string) :=
  external (fun w tr => w_subp w tr cmd) (EvSubp cmd).

Definition which (program : string) (search : list string) : M (option string) :=
  probe (fun w tr => w_which w tr program search) (EvWhich program search).

End subp.

Module Iproute2.

Definition link_up (interface : string) : M (string * string) :=
  external (fun w tr => w_link_up w tr interface) (EvLinkUp interface).

Definition link_down (interface : string) : M (string * string) :=
  external (fun w tr => w_link_down w tr interface) (EvLinkDown interface).

End Iproute2.

(** [eni.available()], [netplan.available()], [network_manager.available()]
    and [networkd.available()]. *)
Definition module_available (m : net_module) : M bool :=
  probe (fun w tr => w_available w tr m) (EvAvailable m).

Definition conn_filename (devname : string) : M (option string) :=
  probe (fun w tr => w_conn_filename w tr devname) (EvConnFilename devname).

(** [network_state.iter_interfaces()] yields one dict per interface. *)
Definition NetworkState : Type := list (list (string * string)).

(** ** activators.py *)

Definition _alter_interface_callable (callable : M (string * string))
    (warn_on_stderr : bool) : M bool :=
  try_except
    (r <- callable ;;
     let '(_out, err) := r in
     (if negb (String.length err =? 0)
      then emit ((if warn_on_stderr then LOG_warning else LOG_debug)
                   "Received stderr output: %s" [AStr err])
      else ret tt) ;;
     ret true)
    (fun e =>
       match e with
       | ProcessExecutionError cmd =>
           Some (emit (util_logexc "Running interface command %s failed" cmd) ;;
                 ret false)
       | _ => None
       end).

Definition _alter_interface (cmd : list string) (device_name : string)
    (warn_on_stderr : bool) : M bool :=
  _alter_interface_callable (subp.subp cmd) warn_on_stderr.

(** The abstract base class: its defaults take the methods of [cls]
    they call as arguments. *)
Module NetworkActivator.

Definition available : M bool := raise NotImplementedError.

Definition bring_up_interface (device_name : string) : M bool :=
  raise NotImplementedError.

Definition bring_down_interface (device_name : string) : M bool :=
  raise NotImplementedError.

Definition bring_up_interfaces (cls_bring_up_interface : string -> M bool)
    (device_names : list string) : M bool :=
  all cls_bring_up_interface device_names.

Definition bring_up_all_interfaces
    (cls_bring_up_interfaces : list string -> M bool)
    (network_state : NetworkState) : M bool :=
  names <- list_comp (fun i => getitem i "name") network_state ;;
  cls_bring_up_interfaces names.

Definition wait_for_network : M unit := raise NotImplementedError.

End NetworkActivator.

Module IfUpDownActivator.

Definition available : M bool := module_available eni.

Definition bring_up_interface (device_name : string) : M bool :=
  let cmd := ["ifup"; device_name] in
  _alter_interface cmd device_name true.

Definition bring_down_interface (device_name : string) : M bool :=
  let cmd := ["ifdown"; device_name] in
  _alter_interface cmd device_name true.

End IfUpDownActivator.

Module IfConfigActivator.

Definition available : M bool :=
  let expected := "ifconfig" in
  let search := ["/sbin"] in
  p <- subp.which expected search ;;
  ret (match p with Some path => PyStr.truthy path | None => false end).

Definition bring_up_interface (device_name : string) : M bool :=
  let cmd := ["ifconfig"; device_name; "up"] in
  _alter_interface cmd device_name true.

Definition bring_down_interface (device_name : string) : M bool :=
  let cmd := ["ifconfig"; device_name; "down"] in
  _alter_interface cmd device_name true.

End IfConfigActivator.

Module NetworkManagerActivator.

Definition available : M bool := module_available network_manager.

Definition bring_up_interface (device_name : string) : M bool :=
  filename <- conn_filename device_name ;;
  match filename with
  | None =>
      emit (LOG_warning
              "Unable to find an interface config file. Unable to bring up interface."
              []) ;;
      ret false
  | Some filename =>
      let cmd := ["nmcli"; "connection"; "load"; filename] in
      loaded <- _alter_interface cmd device_name true ;;
      cmd <- (if loaded
              then ret ["nmcli"; "connection"; "up"; "filename"; filename]
              else
                _alter_interface ["nmcli"; "connection"; "reload"] device_name true ;;
                ret ["nmcli"; "connection"; "up"; "ifname"; device_name]) ;;
      _alter_interface cmd device_name true
  end.

Definition bring_down_interface (device_name : string) : M bool :=
  let cmd := ["nmcli"; "device"; "disconnect"; device_name] in
  _alter_interface cmd device_name true.

Definition bring_up_interfaces (cls_bring_up_interface : string -> M bool)
    (device_names : list string) : M bool :=
  r <- subp.subp ["systemctl"; "show"; "--property=SubState"; "NetworkManager.service"] ;;
  let state := PyStr.rstrip (fst r) in
  (if negb (String.eqb "SubState=running" state)
   then emit (LOG_warning
                "Expected NetworkManager SubState=running, but detected: %s"
                [AStr state])
   else ret tt) ;;
  reloaded <- _alter_interface
                ["systemctl"; "try-reload-or-restart"; "NetworkManager.service"]
                "all" true ;;
  if reloaded then all cls_bring_up_interface device_names else ret false.

End NetworkManagerActivator.

Module NetworkdActivator.

Definition available : M bool := module_available networkd.

Definition bring_up_interface (device_name : string) : M bool :=
  _alter_interface_callable (Iproute2.link_up device_name) true.

Definition bring_up_all_interfaces (network_state : NetworkState) : M bool :=
  let cmd := ["systemctl"; "restart"; "systemd-networkd"; "systemd-resolved"] in
  _alter_interface cmd "all" true.

Definition bring_down_interface (device_name : string) : M bool :=
  _alter_interface_callable (Iproute2.link_down device_name) true.

Definition wait_for_network : M unit :=
  subp.subp ["systemctl"; "start"; "systemd-networkd-wait-online.service"] ;;
  ret tt.

End NetworkdActivator.

Module NetplanActivator.

Definition NETPLAN_CMD : list string := ["netplan"; "apply"].

Definition available : M bool := module_available netplan.

Definition bring_up_interface (device_name : string) : M bool :=
  emit (LOG_debug
          "Calling 'netplan apply' rather than altering individual interfaces" []) ;;
  _alter_interface NETPLAN_CMD "all" false.

Definition bring_up_interfaces (device_names : list string) : M bool :=
  emit (LOG_debug
          "Calling 'netplan apply' rather than altering individual interfaces" []) ;;
  _alter_interface NETPLAN_CMD "all" false.

Definition bring_up_all_interfaces (network_state : NetworkState) : M bool :=
  _alter_interface NETPLAN_CMD "all" false.

Definition bring_down_interface (device_name : string) : M bool :=
  emit (LOG_debug
          "Calling 'netplan apply' rather than altering individual interfaces" []) ;;
  _alter_interface NETPLAN_CMD "all" false.

Definition wait_for_network : M unit :=
  nm <- module_available network_manager ;;
  if nm
  then emit (LOG_debug "NetworkManager is enabled, skipping networkd wait" [])
  else NetworkdActivator.wait_for_network.

End NetplanActivator.

(** Method lookup on a class object. *)
Definition available (cls : activator) : M bool :=
  match cls with
  | IfUpDownActivator => IfUpDownActivator.available
  | IfConfigActivator => IfConfigActivator.available
  | NetworkManagerActivator => NetworkManagerActivator.available
  | NetplanActivator => NetplanActivator.available
  | NetworkdActivator => NetworkdActivator.available
  end.

Definition bring_up_interface (cls : activator) : string -> M bool :=
  match cls with
  | IfUpDownActivator => IfUpDownActivator.bring_up_interface
  | IfConfigActivator => IfConfigActivator.bring_up_interface
  | NetworkManagerActivator => NetworkManagerActivator.bring_up_interface
  | NetplanActivator => NetplanActivator.bring_up_interface
  | NetworkdActivator => NetworkdActivator.bring_up_interface
  end.

Definition bring_down_interface (cls : activator) : string -> M bool :=
  match cls with
  | IfUpDownActivator => IfUpDownActivator.bring_down_interface
  | IfConfigActivator => IfConfigActivator.bring_down_interface
  | NetworkManagerActivator => NetworkManagerActivator.bring_down_interface
  | NetplanActivator => NetplanActivator.bring_down_interface
  | NetworkdActivator => NetworkdActivator.bring_down_interface
  end.

Definition bring_up_interfaces (cls : activator) : list string -> M bool :=
  match cls with
  | NetworkManagerActivator =>
      NetworkManagerActivator.bring_up_interfaces (bring_up_interface cls)
  | NetplanActivator => NetplanActivator.bring_up_interfaces
  | _ => NetworkActivator.bring_up_interfaces (bring_up_interface cls)
  end.

Definition bring_up_all_interfaces (cls : activator) : NetworkState -> M bool :=
  match cls with
  | NetplanActivator => NetplanActivator.bring_up_all_interfaces
  | NetworkdActivator => NetworkdActivator.bring_up_all_interfaces
  | _ => NetworkActivator.bring_up_all_interfaces (bring_up_interfaces cls)
  end.

Definition wait_for_network (cls : activator) : M unit :=
  match cls with
  | NetplanActivator => NetplanActivator.wait_for_network
  | NetworkdActivator => NetworkdActivator.wait_for_network
  | _ => NetworkActivator.wait_for_network
  end.

Definition DEFAULT_PRIORITY : list string :=
  ["eni"; "netplan"; "network-manager"; "networkd"; "ifconfig"].

Definition NAME_TO_ACTIVATOR : list (string * activator) :=
  [("eni", IfUpDownActivator);
   ("netplan", NetplanActivator);
   ("network-manager", NetworkManagerActivator);
   ("networkd", NetworkdActivator);
   ("ifconfig", IfConfigActivator)].

Definition search_activator (priority : list string) : M (option activator) :=
  let unknown := filter (fun i => negb (str_in i DEFAULT_PRIORITY)) priority in
  match unknown with
  | _ :: _ =>
      raise (ValueError
               ("Unknown activators provided in priority list: "
                  ++ PyStr.repr_list unknown)%string)
  | [] =>
      activator_classes <- list_comp (getitem NAME_TO_ACTIVATOR) priority ;;
      next_where available activator_classes
  end.

Definition select_activator (priority : option (list string)) : M activator :=
  let priority :=
    match priority with None => DEFAULT_PRIORITY | Some p => p end in
  selected <- search_activator priority ;;
  match selected with
  | None =>
      raise (NoActivatorException
               ("No available network activators found. Searched through list: "
                  ++ PyStr.repr_list priority)%string)
  | Some cls =>
      emit (LOG_debug "Using selected activator: %s from priority: %s"
              [ACls cls; AList priority]) ;;
      ret cls
  end.

(** ** Vocabulary of the statements *)

(** The external commands among the events: process launches, as opposed
    to look-ups and availability probes. *)
Definition is_command (e : event) : bool :=
  match e with
  | EvSubp _ _ | EvLinkUp _ _ | EvLinkDown _ _ => true
  | _ => false
  end.

Definition commands (tr : list event) : list event := filter is_command tr.

Definition succeeded (r : outcome) : bool :=
  match r with Returned _ _ => true | Raised _ => false end.

Definition expected (r : outcome) : bool :=
  match r with
  | Returned _ _ => true
  | Raised e => is_ProcessExecutionError e
  end.

(** A world whose commands either succeed or fail with a process
    execution failure. *)
Definition only_expected_failures (w : world) : Prop :=
  forall tr,
    (forall cmd, expected (w_subp w tr cmd) = true) /\
    (forall dev, expected (w_link_up w tr dev) = true) /\
    (forall dev, expected (w_link_down w tr dev) = true).

Definition command_succeeded (e : event) : bool :=
  match e with
  | EvSubp _ r | EvLinkUp _ r | EvLinkDown _ r => succeeded r
  | _ => false
  end.

(** [absorbs m w st]: run from [st], [m] returns a boolean without
    raising, and returns true only if the last event of the run is a
    command that succeeded. *)
Definition absorbs (m : M bool) (w : world) (st : state) : Prop :=
  exists b st',
    m w st = (Ret b, st') /\
    (b = true ->
     exists tr e, trace st' = tr ++ [e] /\ command_succeeded e = true).

(** Every interface of the network state has a name. *)
Definition all_named (network_state : NetworkState) : bool :=
  forallb (fun i => match dict_get i "name" with Some _ => true | None => false end)
    network_state.

(** [answers f b w l st st']: calling [f] on the elements of [l] in
    order, from [st], every call returns [b], and the last one leaves
    [st']. *)
Inductive answers {A : Type} (f : A -> M bool) (b : bool) (w : world)
  : list A -> state -> state -> Prop :=
| answers_nil : forall st, answers f b w [] st st
| answers_cons : forall x xs st st1 st2,
    f x w st = (Ret b, st1) ->
    answers f b w xs st1 st2 ->
    answers f b w (x :: xs) st st2.

(** The class a known identifier stands for. *)
Definition names (name : string) (cls : activator) : Prop :=
  dict_get NAME_TO_ACTIVATOR name = Some cls.

Definition known (name : string) : bool := str_in name DEFAULT_PRIORITY.

Definition unknown_of (priority : list string) : list string :=
  filter (fun i => negb (str_in i DEFAULT_PRIORITY)) priority.

(** The availability probe of the back end an identifier names. *)
Definition probe_of (name : string) : M bool :=
  cls <- getitem NAME_TO_ACTIVATOR name ;; available cls.

(** What the bridge makes of the outcome [r] of a command, from the
    state [st] reached when the command has run. *)
Definition bridged (r : outcome) (warn_on_stderr : bool) (st : state)
  : result bool * state :=
  match r with
  | Returned _ err =>
      (Ret true,
       if String.length err =? 0 then st
       else add_log ((if warn_on_stderr then LOG_warning else LOG_debug)
                       "Received stderr output: %s" [AStr err]) st)
  | Raised (ProcessExecutionError cmd) =>
      (Ret false, add_log (util_logexc "Running interface command %s failed" cmd) st)
  | Raised e => (Raise e, st)
  end.

(** ** Example machines *)

Module Machines.

(** Nothing is installed; every command succeeds silently. *)
Definition bare : world := {|
  w_subp := fun _ _ => Returned "" "";
  w_link_up := fun _ _ => Returned "" "";
  w_link_down := fun _ _ => Returned "" "";
  w_available := fun _ _ => false;
  w_which := fun _ _ _ => None;
  w_conn_filename := fun _ _ => None
|}.

(** systemd-networkd is the only back end installed. *)
Definition networkd_only : world := {|
  w_subp := w_subp bare;
  w_link_up := w_link_up bare;
  w_link_down := w_link_down bare;
  w_available := fun _ m => match m with networkd => true | _ => false end;
  w_which := w_which bare;
  w_conn_filename := w_conn_filename bare
|}.

(** Any command that names [eth0] exits with an error; the others
    succeed, writing a line on stderr. *)
Definition eth0_broken : world := {|
  w_subp := fun _ cmd =>
    if str_in "eth0" cmd then Raised (ProcessExecutionError cmd)
    else Returned "" "RTNETLINK answers: File exists";
  w_link_up := w_link_up bare;
  w_link_down := w_link_down bare;
  w_available := w_available bare;
  w_which := w_which bare;
  w_conn_filename := w_conn_filename bare
|}.

Definition eth0_nmconnection : string :=
  "/etc/NetworkManager/system-connections/cloud-init-eth0.nmconnection".

(** NetworkManager has a connection file for every interface, but
    [nmcli connection load] fails; everything else succeeds. *)
Definition nm_load_fails : world := {|
  w_subp := fun _ cmd =>
    if str_in "load" cmd then Raised (ProcessExecutionError cmd)
    else Returned "" "";
  w_link_up := w_link_up bare;
  w_link_down := w_link_down bare;
  w_available := fun _ m => match m with network_manager => true | _ => false end;
  w_which := w_which bare;
  w_conn_filename := fun _ _ => Some eth0_nmconnection
|}.

(** As [nm_load_fails], with a working [nmcli connection load]. *)
Definition nm_works : world := {|
  w_subp := w_subp bare;
  w_link_up := w_link_up bare;
  w_link_down := w_link_down bare;
  w_available := w_available nm_load_fails;
  w_which := w_which bare;
  w_conn_filename := w_conn_filename nm_load_fails
|}.

(** No service manager answers: every [systemctl] call exits with an
    error. *)
Definition no_systemd : world := {|
  w_subp := fun _ cmd =>
    if str_in "systemctl" cmd then Raised (ProcessExecutionError cmd)
    else Returned "" "";
  w_link_up := w_link_up bare;
  w_link_down := w_link_down bare;
  w_available := w_available bare;
  w_which := w_which bare;
  w_conn_filename := w_conn_filename nm_load_fails
|}.

(** A stand-in for [bring_up_interface] that notes each call in the
    log and fails on [eth0]. *)
Definition mock_bring_up_interface (device_name : string) : M bool :=
  emit (LOG_debug "bring_up_interface(%s)" [AStr device_name]) ;;
  ret (negb (String.eqb device_name "eth0")).

(** A callable that raises something else than a process execution
    failure. *)
Definition faulty_callable : M (string * string) :=
  raise (OtherError "TypeError").

End Machines.

(** ** Further vocabulary *)

(** The list [select_activator] searches. *)
Definition searched_list (priority : option (list string)) : list string :=
  match priority with None => DEFAULT_PRIORITY | Some p => p end.

(** The event concerns the interface [dev]: a command with [dev] among
    its words, or a link operation on [dev]. *)
Definition event_device (dev : string) (e : event) : bool :=
  match e with
  | EvSubp cmd _ => str_in dev cmd
  | EvLinkUp d _ | EvLinkDown d _ => String.eqb d dev
  | _ => false
  end.

Definition all_space (s : string) : bool :=
  forallb PyStr.isspace (list_ascii_of_string s).

(** The classes that keep the default [wait_for_network]. *)
Definition waits (cls : activator) : bool :=
  match cls with
  | NetplanActivator | NetworkdActivator => true
  | _ => false
  end.

(** The classes that keep the default [bring_up_all_interfaces]. *)
Definition default_bring_up_all (cls : activator) : bool :=
  match cls with
  | NetplanActivator | NetworkdActivator => false
  | _ => true
  end.

(** The commands of the NetworkManager [bring_up_interfaces]. *)
Definition nm_show : list string :=
  ["systemctl"; "show"; "--property=SubState"; "NetworkManager.service"].

Definition nm_reload : list string :=
  ["systemctl"; "try-reload-or-restart"; "NetworkManager.service"].

(** A machine on which what is installed does not change with the
    calls made. *)
Definition stationary (w : world) : Prop :=
  forall tr tr',
    (forall m, w_available w tr m = w_available w tr' m) /\
    (forall program search, w_which w tr program search = w_which w tr' program search).

(** What the availability probe of a class answers at the start. *)
Definition installed (w : world) (cls : activator) : bool :=
  match fst (available cls w initial) with
  | Ret b => b
  | Raise _ => false
  end.

(** [search_activator] and [select_activator] with the [available]
    method of the classes as a parameter, as when a class is replaced
    by a test double: the parameter may do what [available] of this
    file cannot, raise.  With [available] itself they are the two
    functions above. *)
Definition search_activator_with (cls_available : activator -> M bool)
    (priority : list string) : M (option activator) :=
  let unknown := filter (fun i => negb (str_in i DEFAULT_PRIORITY)) priority in
  match unknown with
  | _ :: _ =>
      raise (ValueError
               ("Unknown activators provided in priority list: "
                  ++ PyStr.repr_list unknown)%string)
  | [] =>
      activator_classes <- list_comp (getitem NAME_TO_ACTIVATOR) priority ;;
      next_where cls_available activator_classes
  end.

Definition select_activator_with (cls_available : activator -> M bool)
    (priority : option (list string)) : M activator :=
  let priority :=
    match priority with None => DEFAULT_PRIORITY | Some p => p end in
  selected <- search_activator_with cls_available priority ;;
  match selected with
  | None =>
      raise (NoActivatorException
               ("No available network activators found. Searched through list: "
                  ++ PyStr.repr_list priority)%string)
  | Some cls =>
      emit (LOG_debug "Using selected activator: %s from priority: %s"
              [ACls cls; AList priority]) ;;
      ret cls
  end.

(** The event is the call that [available] of the class makes. *)
Definition probe_call (cls : activator) (e : event) : bool :=
  match cls, e with
  | IfUpDownActivator, EvAvailable eni _ => true
  | NetplanActivator, EvAvailable netplan _ => true
  | NetworkManagerActivator, EvAvailable network_manager _ => true
  | NetworkdActivator, EvAvailable networkd _ => true
  | IfConfigActivator, EvWhich program [dir] _ =>
      String.eqb program "ifconfig" && String.eqb dir "/sbin"
  | _, _ => false
  end.

(** A [LOG.warning] call turned into the [LOG.debug] call with the same
    format and arguments; other calls are left as they are. *)
Definition at_debug (l : log_call) : log_call :=
  match l with
  | LOG_warning fmt args => LOG_debug fmt args
  | _ => l
  end.

Definition is_LOG_debug (l : log_call) : bool :=
  match l with LOG_debug _ _ => true | _ => false end.

Module Faults.

(** NetworkManager runs, but cannot be reloaded. *)
Definition nm_reload_fails : world := {|
  w_subp := fun _ cmd =>
    if str_in "try-reload-or-restart" cmd then Raised (ProcessExecutionError cmd)
    else Returned ("SubState=running" ++ String (ascii_of_nat 10) "")%string "";
  w_link_up := w_link_up Machines.bare;
  w_link_down := w_link_down Machines.bare;
  w_available := w_available Machines.nm_works;
  w_which := w_which Machines.bare;
  w_conn_filename := w_conn_filename Machines.nm_works
|}.

(** NetworkManager is dead, the reload revives it. *)
Definition nm_dead : world := {|
  w_subp := fun _ cmd =>
    if str_in "show" cmd then Returned "SubState=dead" "" else Returned "" "";
  w_link_up := w_link_up Machines.bare;
  w_link_down := w_link_down Machines.bare;
  w_available := w_available Machines.nm_works;
  w_which := w_which Machines.bare;
  w_conn_filename := w_conn_filename Machines.nm_works
|}.

(** [nmcli connection load] dies of something else than a process
    execution failure. *)
Definition nm_load_crashes : world := {|
  w_subp := fun _ cmd =>
    if str_in "load" cmd then Raised (OtherError "UnicodeDecodeError")
    else Returned "" "";
  w_link_up := w_link_up Machines.bare;
  w_link_down := w_link_down Machines.bare;
  w_available := w_available Machines.nm_works;
  w_which := w_which Machines.bare;
  w_conn_filename := w_conn_filename Machines.nm_works
|}.


(** A stand-in for [available] whose netplan probe raises. *)
Definition mock_available (cls : activator) : M bool :=
  match cls with
  | NetplanActivator => raise (OtherError "PermissionError")
  | _ => available cls
  end.

End Faults.

(** ** Python strings *)

Example repr_list_foo : PyStr.repr_list ["foo"] = "['foo']".
Proof. reflexivity. Qed.

Example repr_list_empty : PyStr.repr_list [] = "[]".
Proof. reflexivity. Qed.

(** A single quote inside switches the delimiters to double quotes; a
    newline is escaped. *)
Example repr_quotes :
  PyStr.repr "it's" = String PyStr.dquote ("it's" ++ String PyStr.dquote "")%string
  /\ PyStr.repr (String (ascii_of_nat 10) "x")
     = String "'" (String PyStr.backslash "nx'").
Proof. split; reflexivity. Qed.

Example rstrip_newline :
  PyStr.rstrip ("SubState=running" ++ String (ascii_of_nat 10) "")%string
  = "SubState=running"
  /\ PyStr.rstrip "a b  " = "a b" /\ PyStr.rstrip "   " = "".
Proof. repeat split. Qed.

(** ** Running a computation *)

Section Run.

Context {A B : Type}.
Variables (m : M A) (k : A -> M B) (w : world) (st st' : state).

Lemma bind_Ret a : m w st = (Ret a, st') -> bind m k w st = k a w st'.
Proof. intros H. unfold bind. rewrite H. reflexivity. Qed.

Lemma bind_Raise e : m w st = (Raise e, st') -> bind m k w st = (Raise e, st').
Proof. intros H. unfold bind. rewrite H. reflexivity. Qed.

End Run.

(** ** The command execution bridge *)

Section Bridge.

Variables (callable : M (string * string)) (warn_on_stderr : bool).
Variables (w : world) (st st' : state).

Lemma bridge_success out err :
  callable w st = (Ret (out, err), st') ->
  _alter_interface_callable callable warn_on_stderr w st =
    (Ret true,
     if String.length err =? 0 then st'
     else add_log ((if warn_on_stderr then LOG_warning else LOG_debug)
                     "Received stderr output: %s" [AStr err]) st').
Proof.
  intros H. unfold _alter_interface_callable, try_except, bind.
  rewrite H. destruct (String.length err =? 0); reflexivity.
Qed.

Lemma bridge_failure cmd :
  callable w st = (Raise (ProcessExecutionError cmd), st') ->
  _alter_interface_callable callable warn_on_stderr w st =
    (Ret false,
     add_log (util_logexc "Running interface command %s failed" cmd) st').
Proof.
  intros H. unfold _alter_interface_callable, try_except, bind.
  rewrite H. reflexivity.
Qed.

Lemma bridge_other e :
  is_ProcessExecutionError e = false ->
  callable w st = (Raise e, st') ->
  _alter_interface_callable callable warn_on_stderr w st = (Raise e, st').
Proof.
  intros He H. unfold _alter_interface_callable, try_except, bind.
  rewrite H. destruct e; try reflexivity. discriminate He.
Qed.

End Bridge.

Lemma bridged_external oracle ev warn_on_stderr w st :
  _alter_interface_callable (external oracle ev) warn_on_stderr w st =
    bridged (oracle w (trace st)) warn_on_stderr
      (add_event (ev (oracle w (trace st))) st).
Proof.
  unfold _alter_interface_callable, try_except, bind, external, bridged.
  destruct (oracle w (trace st)) as [out err | e].
  - destruct (String.length err =? 0); reflexivity.
  - destruct e; reflexivity.
Qed.

Lemma _alter_interface_run cmd device_name warn_on_stderr w st :
  _alter_interface cmd device_name warn_on_stderr w st =
    bridged (w_subp w (trace st) cmd) warn_on_stderr
      (add_event (EvSubp cmd (w_subp w (trace st) cmd)) st).
Proof. unfold _alter_interface, subp.subp. apply bridged_external. Qed.

Lemma bridged_expected r warn_on_stderr st :
  expected r = true ->
  exists st', bridged r warn_on_stderr st = (Ret (succeeded r), st').
Proof.
  destruct r as [out err | e]; simpl; intros H.
  - eexists; reflexivity.
  - destruct e; try discriminate H. eexists; reflexivity.
Qed.

Lemma bridged_trace r warn_on_stderr st :
  trace (snd (bridged r warn_on_stderr st)) = trace st.
Proof.
  destruct r as [out err | e]; simpl.
  - destruct (String.length err =? 0); reflexivity.
  - destruct e; reflexivity.
Qed.

(** ** Sequences of calls *)

Section Sequences.

Context {A : Type}.
Variables (f : A -> M bool) (w : world).

Lemma all_short_circuit l1 d l2 st st1 st2 :
  answers f true w l1 st st1 ->
  f d w st1 = (Ret false, st2) ->
  all f (l1 ++ d :: l2) w st = (Ret false, st2).
Proof.
  intros Hl Hd. induction Hl as [st | x xs st sta stb Hx Hxs IH]; simpl.
  - rewrite (bind_Ret _ _ _ _ _ _ Hd). reflexivity.
  - rewrite (bind_Ret _ _ _ _ _ _ Hx). apply IH, Hd.
Qed.

Lemma all_true l st st' :
  answers f true w l st st' -> all f l w st = (Ret true, st').
Proof.
  induction 1 as [st | x xs st sta stb Hx Hxs IH]; simpl.
  - reflexivity.
  - rewrite (bind_Ret _ _ _ _ _ _ Hx). exact IH.
Qed.

Lemma next_where_found l1 x l2 st st1 st2 :
  answers f false w l1 st st1 ->
  f x w st1 = (Ret true, st2) ->
  next_where f (l1 ++ x :: l2) w st = (Ret (Some x), st2).
Proof.
  intros Hl Hx. induction Hl as [st | y ys st sta stb Hy Hys IH]; simpl.
  - rewrite (bind_Ret _ _ _ _ _ _ Hx). reflexivity.
  - rewrite (bind_Ret _ _ _ _ _ _ Hy). apply IH, Hx.
Qed.

Lemma next_where_none l st st' :
  answers f false w l st st' -> next_where f l w st = (Ret None, st').
Proof.
  induction 1 as [st | y ys st sta stb Hy Hys IH]; simpl.
  - reflexivity.
  - rewrite (bind_Ret _ _ _ _ _ _ Hy). exact IH.
Qed.

(** A predicate that always returns splits any list at its first
    true answer. *)
Lemma answers_split :
  (forall x st, exists b st', f x w st = (Ret b, st')) ->
  forall l st,
    (exists st', answers f false w l st st') \/
    (exists l1 x l2 st1 st2,
        l = l1 ++ x :: l2 /\ answers f false w l1 st st1 /\
        f x w st1 = (Ret true, st2)).
Proof.
  intros Htot l. induction l as [| x xs IH]; intros st.
  - left. exists st. constructor.
  - destruct (Htot x st) as [[|] [sta Hx]].
    + right. exists [], x, xs, st, sta. repeat split; [constructor | exact Hx].
    + destruct (IH sta) as [[st' Hn] | (l1 & y & l2 & st1 & st2 & -> & Hl1 & Hy)].
      * left. exists st'. econstructor; eassumption.
      * right. exists (x :: l1), y, l2, st1, st2.
        repeat split; [econstructor; eassumption | exact Hy].
Qed.

End Sequences.

(** ** The registry *)

Lemma known_names name : known name = true -> exists cls, names name cls.
Proof.
  unfold known, names, str_in, DEFAULT_PRIORITY, NAME_TO_ACTIVATOR. simpl.
  destruct (String.eqb name "eni"); [eauto |].
  destruct (String.eqb name "netplan"); [eauto |].
  destruct (String.eqb name "network-manager"); [eauto |].
  destruct (String.eqb name "networkd"); [eauto |].
  destruct (String.eqb name "ifconfig"); [eauto |].
  discriminate.
Qed.

Lemma unknown_of_In priority x :
  In x (unknown_of priority) <-> In x priority /\ ~ In x DEFAULT_PRIORITY.
Proof.
  unfold unknown_of. rewrite filter_In. split; intros [Hin Hx]; split; trivial.
  - intros Hd. apply negb_true_iff in Hx.
    assert (str_in x DEFAULT_PRIORITY = true) as E; [| congruence].
    apply existsb_exists. exists x. split; [exact Hd | apply String.eqb_refl].
  - apply negb_true_iff. destruct (str_in x DEFAULT_PRIORITY) eqn:E; trivial.
    exfalso. apply Hx. apply existsb_exists in E as (y & Hy & Exy).
    apply String.eqb_eq in Exy. subst y. exact Hy.
Qed.

Lemma unknown_of_nil priority :
  forallb known priority = true -> unknown_of priority = [].
Proof.
  induction priority as [| x xs IH]; intros H; [reflexivity |].
  cbn [forallb] in H. apply andb_true_iff in H as [Hx Hxs]. unfold known in Hx.
  unfold unknown_of. cbn [filter]. rewrite Hx. cbn [negb]. apply IH, Hxs.
Qed.

Lemma unknown_of_cons priority :
  existsb (fun i => negb (known i)) priority = true ->
  exists x xs, unknown_of priority = x :: xs.
Proof.
  intros H. apply existsb_exists in H as (x & Hin & Hx).
  destruct (unknown_of priority) as [| y ys] eqn:E; [| eauto].
  exfalso. assert (In x (unknown_of priority)) as Hu.
  { unfold unknown_of. apply filter_In. split; assumption. }
  rewrite E in Hu. exact Hu.
Qed.

Lemma getitem_names name cls w st :
  names name cls -> getitem NAME_TO_ACTIVATOR name w st = (Ret cls, st).
Proof. unfold names, getitem. intros ->. reflexivity. Qed.

Lemma list_comp_getitem priority w st :
  forallb known priority = true ->
  exists classes,
    list_comp (getitem NAME_TO_ACTIVATOR) priority w st = (Ret classes, st) /\
    Forall2 names priority classes.
Proof.
  induction priority as [| x xs IH]; intros H.
  - exists []. split; [reflexivity | constructor].
  - cbn [forallb] in H. apply andb_true_iff in H as [Hx Hxs].
    destruct (known_names x Hx) as [cls Hcls].
    destruct (IH Hxs) as (cs & Hrun & Hcs).
    exists (cls :: cs). split; [| constructor; assumption].
    cbn [list_comp].
    rewrite (bind_Ret _ _ _ _ _ _ (getitem_names _ _ w st Hcls)).
    rewrite (bind_Ret _ _ _ _ _ _ Hrun). reflexivity.
Qed.

Lemma probe_of_names name cls w st :
  names name cls -> probe_of name w st = available cls w st.
Proof.
  intros H. unfold probe_of.
  apply (bind_Ret _ _ _ _ _ _ (getitem_names _ _ w st H)).
Qed.

Lemma answers_probe_of b w ns cs :
  Forall2 names ns cs ->
  forall st st', answers available b w cs st st' -> answers probe_of b w ns st st'.
Proof.
  induction 1 as [| n c ns cs Hn Hns IH]; intros st st' Ha;
    inversion Ha; subst; econstructor.
  - rewrite (probe_of_names _ _ _ _ Hn). eassumption.
  - apply IH. assumption.
Qed.

Lemma answers_available b w ns cs :
  Forall2 names ns cs ->
  forall st st', answers probe_of b w ns st st' -> answers available b w cs st st'.
Proof.
  induction 1 as [| n c ns cs Hn Hns IH]; intros st st' Ha;
    inversion Ha; subst; econstructor.
  - rewrite <- (probe_of_names _ _ _ _ Hn). eassumption.
  - apply IH. assumption.
Qed.

Lemma available_returns cls w st :
  exists b st', available cls w st = (Ret b, st').
Proof. destruct cls; eexists; eexists; reflexivity. Qed.

(** An availability probe runs no command. *)
Lemma available_commands cls w st b st' :
  available cls w st = (Ret b, st') -> commands (trace st') = commands (trace st).
Proof.
  unfold commands.
  destruct cls; intros H; inversion H; subst; simpl;
    rewrite filter_app; simpl; apply app_nil_r.
Qed.

Lemma search_activator_known priority w st :
  forallb known priority = true ->
  exists classes,
    Forall2 names priority classes /\
    search_activator priority w st = next_where available classes w st.
Proof.
  intros H. destruct (list_comp_getitem priority w st H) as (cs & Hrun & Hcs).
  exists cs. split; [exact Hcs |].
  unfold search_activator. fold (unknown_of priority).
  rewrite (unknown_of_nil _ H). apply (bind_Ret _ _ _ _ _ _ Hrun).
Qed.

Lemma search_activator_unknown priority w st :
  existsb (fun i => negb (known i)) priority = true ->
  search_activator priority w st =
    (Raise (ValueError
              ("Unknown activators provided in priority list: "
                 ++ PyStr.repr_list (unknown_of priority))%string), st).
Proof.
  intros H. destruct (unknown_of_cons _ H) as (x & xs & E).
  unfold search_activator. fold (unknown_of priority). rewrite E. reflexivity.
Qed.

(** ** Selection *)

(** C1.  For a priority list of known identifiers, run the
    availability probes of the entries in list order.  If the probes of
    [before] all answer false and the probe of the next entry, which
    names the class [cls], answers true, [search_activator] returns
    [cls], from the state that probe left: nothing after it is probed.
    If the probes of the whole list answer false, it returns [None].
    One of the two is always the case, so [search_activator] returns. *)
Theorem search_activator_first_available priority w st :
  forallb known priority = true ->
  (forall before name after cls st1 st',
      priority = before ++ name :: after ->
      names name cls ->
      answers probe_of false w before st st1 ->
      available cls w st1 = (Ret true, st') ->
      search_activator priority w st = (Ret (Some cls), st')) /\
  (forall st',
      answers probe_of false w priority st st' ->
      search_activator priority w st = (Ret None, st')) /\
  ((exists before name after cls st1 st',
       priority = before ++ name :: after /\
       names name cls /\
       answers probe_of false w before st st1 /\
       available cls w st1 = (Ret true, st')) \/
   (exists st', answers probe_of false w priority st st')).
Proof.
  intros Hk.
  destruct (search_activator_known priority w st Hk) as (cs & Hcs & ->).
  split; [| split].
  - intros before name after cls st1 st' -> Hname Hbefore Hcls.
    apply Forall2_app_inv_l in Hcs as (cs1 & rest & Hcs1 & Hrest & ->).
    inversion Hrest as [| n c after' cs2 Hn Hafter]; subst.
    unfold names in Hname, Hn. rewrite Hname in Hn. injection Hn as <-.
    eapply next_where_found; [| exact Hcls].
    eapply answers_available; eassumption.
  - intros st' Hnone. apply next_where_none.
    eapply answers_available; eassumption.
  - destruct (answers_split available w (fun c s => available_returns c w s) cs st)
      as [[st' Hnone] | (l1 & cls & l2 & st1 & st2 & -> & Hbefore & Hcls)].
    + right. exists st'. eapply answers_probe_of; eassumption.
    + left. apply Forall2_app_inv_r in Hcs as (before & rest & Hb & Hrest & ->).
      inversion Hrest as [| name c after l2' Hname Hafter]; subst.
      exists before, name, after, cls, st1, st2. repeat split; trivial.
      eapply answers_probe_of; eassumption.
Qed.

Lemma search_activator_first_available_witness :
  let probed_eni := {| trace := [EvAvailable eni false]; log := [] |} in
  let probed_networkd :=
    {| trace := [EvAvailable eni false; EvAvailable networkd true]; log := [] |} in
  forallb known ["eni"; "networkd"; "ifconfig"] = true /\
  answers probe_of false Machines.networkd_only ["eni"] initial probed_eni /\
  available NetworkdActivator Machines.networkd_only probed_eni
    = (Ret true, probed_networkd) /\
  search_activator ["eni"; "networkd"; "ifconfig"] Machines.networkd_only initial
    = (Ret (Some NetworkdActivator), probed_networkd) /\
  search_activator ["eni"; "netplan"] Machines.networkd_only initial
    = (Ret None,
       {| trace := [EvAvailable eni false; EvAvailable netplan false]; log := [] |}).
Proof.
  intros probed_eni probed_networkd.
  assert (answers probe_of false Machines.networkd_only ["eni"] initial probed_eni)
    as Heni.
  { apply (answers_cons probe_of false Machines.networkd_only
             "eni" [] initial probed_eni probed_eni eq_refl).
    apply answers_nil. }
  split; [reflexivity |]. split; [exact Heni |]. split; [reflexivity |]. split.
  - exact (proj1 (search_activator_first_available ["eni"; "networkd"; "ifconfig"]
                    Machines.networkd_only initial eq_refl)
             ["eni"] "networkd" ["ifconfig"] NetworkdActivator
             probed_eni probed_networkd eq_refl eq_refl Heni eq_refl).
  - refine (proj1 (proj2 (search_activator_first_available ["eni"; "netplan"]
                            Machines.networkd_only initial eq_refl))
              {| trace := [EvAvailable eni false; EvAvailable netplan false];
                 log := [] |} _).
    repeat (econstructor; [reflexivity |]). constructor.
Defined.

(** The run of the witness, in full: one probe of [eni], one probe of
    [networkd], none of [ifconfig]. *)
Example search_activator_networkd_only :
  search_activator ["eni"; "networkd"; "ifconfig"] Machines.networkd_only initial
  = (Ret (Some NetworkdActivator),
     {| trace := [EvAvailable eni false; EvAvailable networkd true]; log := [] |}).
Proof. reflexivity. Qed.

(** C8.  A priority list that holds an identifier outside
    [DEFAULT_PRIORITY] makes [search_activator], and [select_activator]
    with it, raise [ValueError] at once: the state is the one of the
    call, so no availability probe has run.  The message ends with the
    [repr] of the list of the unknown entries, which holds exactly the
    entries of the priority list that are not known, in their order. *)
Theorem search_activator_rejects_unknown priority w st :
  existsb (fun i => negb (known i)) priority = true ->
  let message :=
    ("Unknown activators provided in priority list: "
       ++ PyStr.repr_list (unknown_of priority))%string in
  search_activator priority w st = (Raise (ValueError message), st) /\
  select_activator (Some priority) w st = (Raise (ValueError message), st) /\
  unknown_of priority = filter (fun i => negb (known i)) priority /\
  (forall i, In i (unknown_of priority) <->
             In i priority /\ ~ In i DEFAULT_PRIORITY).
Proof.
  intros H message.
  pose proof (search_activator_unknown priority w st H) as Hs.
  fold message in Hs. split; [exact Hs |]. split; [| split].
  - unfold select_activator. apply (bind_Raise _ _ _ _ _ _ Hs).
  - reflexivity.
  - intros i. apply unknown_of_In.
Qed.

Lemma search_activator_rejects_unknown_witness :
  existsb (fun i => negb (known i)) ["foo"] = true /\
  search_activator ["foo"] Machines.networkd_only initial
    = (Raise (ValueError "Unknown activators provided in priority list: ['foo']"),
       initial) /\
  select_activator (Some ["foo"]) Machines.networkd_only initial
    = (Raise (ValueError "Unknown activators provided in priority list: ['foo']"),
       initial).
Proof.
  split; [reflexivity |].
  destruct (search_activator_rejects_unknown ["foo"] Machines.networkd_only initial)
    as (Hsearch & Hselect & _); [reflexivity |].
  split; [exact Hsearch | exact Hselect].
Defined.

(** Known entries are left out of the message, unknown ones are all
    named, in the order of the list. *)
Example select_activator_names_unknown :
  select_activator (Some ["foo"; "eni"; "bar"; "foo"]) Machines.networkd_only initial
  = (Raise (ValueError
       "Unknown activators provided in priority list: ['foo', 'bar', 'foo']"),
     initial).
Proof. reflexivity. Qed.

Lemma probe_of_known name w st b st' :
  probe_of name w st = (Ret b, st') -> known name = true.
Proof.
  unfold probe_of, bind, getitem, known, str_in, DEFAULT_PRIORITY, NAME_TO_ACTIVATOR.
  simpl.
  destruct (String.eqb name "eni"); [reflexivity |].
  destruct (String.eqb name "netplan"); [reflexivity |].
  destruct (String.eqb name "network-manager"); [reflexivity |].
  destruct (String.eqb name "networkd"); [reflexivity |].
  destruct (String.eqb name "ifconfig"); [reflexivity |].
  discriminate.
Qed.

Lemma answers_probe_of_known b w priority st st' :
  answers probe_of b w priority st st' -> forallb known priority = true.
Proof.
  induction 1 as [st | x xs st sta stb Hx Hxs IH]; [reflexivity |].
  cbn [forallb]. rewrite (probe_of_known _ _ _ _ _ Hx). exact IH.
Qed.

(** C9.  Without a priority list, [select_activator] searches
    [DEFAULT_PRIORITY], which is eni, netplan, network-manager,
    networkd, ifconfig in this order.  With or without one, when the
    availability probe of each entry of the list searched, run in list
    order, answers false, it raises [NoActivatorException] with a
    message that ends with the [repr] of the list searched. *)
Theorem select_activator_none_available priority w st st' :
  let searched :=
    match priority with None => DEFAULT_PRIORITY | Some p => p end in
  answers probe_of false w searched st st' ->
  DEFAULT_PRIORITY = ["eni"; "netplan"; "network-manager"; "networkd"; "ifconfig"] /\
  select_activator None w st = select_activator (Some DEFAULT_PRIORITY) w st /\
  select_activator priority w st =
    (Raise (NoActivatorException
              ("No available network activators found. Searched through list: "
                 ++ PyStr.repr_list searched)%string), st').
Proof.
  intros searched Hnone. split; [reflexivity |]. split; [reflexivity |].
  pose proof (answers_probe_of_known _ _ _ _ _ Hnone) as Hk.
  destruct (search_activator_known searched w st Hk) as (cs & Hcs & Hs).
  assert (search_activator searched w st = (Ret None, st')) as Hsearch.
  { rewrite Hs. apply next_where_none.
    eapply answers_available; eassumption. }
  unfold select_activator. fold searched.
  rewrite (bind_Ret _ _ _ _ _ _ Hsearch). reflexivity.
Qed.

Lemma select_activator_none_available_witness :
  let probed :=
    {| trace := [EvAvailable eni false; EvAvailable netplan false;
                 EvAvailable network_manager false; EvAvailable networkd false;
                 EvWhich "ifconfig" ["/sbin"] None];
       log := [] |} in
  answers probe_of false Machines.bare DEFAULT_PRIORITY initial probed /\
  select_activator None Machines.bare initial =
    (Raise (NoActivatorException
       "No available network activators found. Searched through list: ['eni', 'netplan', 'network-manager', 'networkd', 'ifconfig']"),
     probed) /\
  select_activator (Some ["networkd"; "eni"]) Machines.bare initial =
    (Raise (NoActivatorException
       "No available network activators found. Searched through list: ['networkd', 'eni']"),
     {| trace := [EvAvailable networkd false; EvAvailable eni false]; log := [] |}).
Proof.
  intros probed.
  assert (answers probe_of false Machines.bare DEFAULT_PRIORITY initial probed)
    as Hnone.
  { repeat (econstructor; [reflexivity |]). constructor. }
  split; [exact Hnone |]. split.
  - exact (proj2 (proj2 (select_activator_none_available None Machines.bare initial
                           probed Hnone))).
  - refine (proj2 (proj2 (select_activator_none_available (Some ["networkd"; "eni"])
                            Machines.bare initial
                            {| trace := [EvAvailable networkd false;
                                         EvAvailable eni false];
                               log := [] |} _))).
    repeat (econstructor; [reflexivity |]). constructor.
Defined.

(** ** The bridge, as claimed *)

(** C4.  When the callable raises, the bridge returns false for a
    process execution failure, after a [util.logexc] call that carries
    the command of the failure, and lets any other exception through
    unchanged. *)
Theorem bridge_absorbs_process_failure callable warn_on_stderr w st e st' :
  callable w st = (Raise e, st') ->
  _alter_interface_callable callable warn_on_stderr w st =
    match e with
    | ProcessExecutionError cmd =>
        (Ret false,
         add_log (util_logexc "Running interface command %s failed" cmd) st')
    | _ => (Raise e, st')
    end.
Proof.
  intros H. destruct e;
    solve [ apply bridge_failure, H | apply bridge_other; [reflexivity | exact H] ].
Qed.

Lemma bridge_absorbs_process_failure_witness :
  _alter_interface_callable (subp.subp ["ifup"; "eth0"]) true
      Machines.eth0_broken initial
    = (Ret false,
       {| trace := [EvSubp ["ifup"; "eth0"]
                      (Raised (ProcessExecutionError ["ifup"; "eth0"]))];
          log := [util_logexc "Running interface command %s failed"
                    ["ifup"; "eth0"]] |}) /\
  _alter_interface_callable Machines.faulty_callable true Machines.bare initial
    = (Raise (OtherError "TypeError"), initial).
Proof.
  split.
  - exact (bridge_absorbs_process_failure (subp.subp ["ifup"; "eth0"]) true
             Machines.eth0_broken initial
             (ProcessExecutionError ["ifup"; "eth0"])
             {| trace := [EvSubp ["ifup"; "eth0"]
                            (Raised (ProcessExecutionError ["ifup"; "eth0"]))];
                log := [] |}
             eq_refl).
  - exact (bridge_absorbs_process_failure Machines.faulty_callable true
             Machines.bare initial (OtherError "TypeError") initial eq_refl).
Defined.

(** C5.  When the callable returns, the bridge returns true.  It logs
    the stderr output when that is not empty, and only then: with
    [LOG.warning] when [warn_on_stderr] is set, as it is by default,
    with [LOG.debug] when it is not. *)
Theorem bridge_logs_stderr callable warn_on_stderr w st out err st' :
  callable w st = (Ret (out, err), st') ->
  _alter_interface_callable callable warn_on_stderr w st =
    (Ret true,
     {| trace := trace st';
        log := log st' ++
               match err, warn_on_stderr with
               | EmptyString, _ => []
               | _, true => [LOG_warning "Received stderr output: %s" [AStr err]]
               | _, false => [LOG_debug "Received stderr output: %s" [AStr err]]
               end |}).
Proof.
  intros H. rewrite (bridge_success _ _ _ _ _ _ _ H).
  destruct err as [| c err]; simpl.
  - rewrite app_nil_r. destruct st'; reflexivity.
  - destruct warn_on_stderr; reflexivity.
Qed.

Lemma bridge_logs_stderr_witness :
  let ran out :=
    {| trace := [EvSubp ["ifup"; "eth1"] out]; log := [] |} in
  _alter_interface_callable (subp.subp ["ifup"; "eth1"]) true
      Machines.eth0_broken initial
    = (Ret true,
       {| trace := trace (ran (Returned "" "RTNETLINK answers: File exists"));
          log := [LOG_warning "Received stderr output: %s"
                    [AStr "RTNETLINK answers: File exists"]] |}) /\
  _alter_interface_callable (subp.subp ["ifup"; "eth1"]) false
      Machines.eth0_broken initial
    = (Ret true,
       {| trace := trace (ran (Returned "" "RTNETLINK answers: File exists"));
          log := [LOG_debug "Received stderr output: %s"
                    [AStr "RTNETLINK answers: File exists"]] |}) /\
  _alter_interface_callable (subp.subp ["ifup"; "eth1"]) true Machines.bare initial
    = (Ret true, ran (Returned "" "")).
Proof.
  intros ran. split; [| split].
  - exact (bridge_logs_stderr (subp.subp ["ifup"; "eth1"]) true
             Machines.eth0_broken initial
             "" "RTNETLINK answers: File exists"
             (ran (Returned "" "RTNETLINK answers: File exists")) eq_refl).
  - exact (bridge_logs_stderr (subp.subp ["ifup"; "eth1"]) false
             Machines.eth0_broken initial
             "" "RTNETLINK answers: File exists"
             (ran (Returned "" "RTNETLINK answers: File exists")) eq_refl).
  - exact (bridge_logs_stderr (subp.subp ["ifup"; "eth1"]) true
             Machines.bare initial "" "" (ran (Returned "" "")) eq_refl).
Defined.

(** ** Bringing interfaces up *)

(** C2.  The default [bring_up_interfaces] calls [bring_up_interface]
    on the names in order and stops at the first false answer.  When
    the calls on [before], made in order, all return true, the result
    for [before] is true; and when the next call, on [failing], returns
    false, the result for [before ++ failing :: after] is false and the
    state is the one the failing call left: nothing is called for
    [after]. *)
Theorem bring_up_interfaces_short_circuit
    (cls_bring_up_interface : string -> M bool) before w st st1 :
  answers cls_bring_up_interface true w before st st1 ->
  NetworkActivator.bring_up_interfaces cls_bring_up_interface before w st
    = (Ret true, st1) /\
  forall failing after st2,
    cls_bring_up_interface failing w st1 = (Ret false, st2) ->
    NetworkActivator.bring_up_interfaces cls_bring_up_interface
        (before ++ failing :: after) w st
      = (Ret false, st2).
Proof.
  intros Hbefore. unfold NetworkActivator.bring_up_interfaces. split.
  - apply all_true, Hbefore.
  - intros failing after st2 Hfailing.
    eapply all_short_circuit; eassumption.
Qed.

Lemma bring_up_interfaces_short_circuit_witness :
  let called name := LOG_debug "bring_up_interface(%s)" [AStr name] in
  NetworkActivator.bring_up_interfaces Machines.mock_bring_up_interface
      ["eth0"; "eth1"] Machines.bare initial
    = (Ret false, {| trace := []; log := [called "eth0"] |}) /\
  NetworkActivator.bring_up_interfaces Machines.mock_bring_up_interface
      ["eth1"; "eth2"; "eth0"; "eth3"] Machines.bare initial
    = (Ret false,
       {| trace := []; log := [called "eth1"; called "eth2"; called "eth0"] |}).
Proof.
  intros called. split.
  - exact (proj2 (bring_up_interfaces_short_circuit Machines.mock_bring_up_interface
                    [] Machines.bare initial initial (answers_nil _ _ _ initial))
             "eth0" ["eth1"]
             {| trace := []; log := [called "eth0"] |} eq_refl).
  - refine (proj2 (bring_up_interfaces_short_circuit Machines.mock_bring_up_interface
                     ["eth1"; "eth2"] Machines.bare initial
                     {| trace := []; log := [called "eth1"; called "eth2"] |} _)
              "eth0" ["eth3"]
              {| trace := []; log := [called "eth1"; called "eth2"; called "eth0"] |}
              eq_refl).
    apply (answers_cons _ _ _ "eth1" ["eth2"] initial
             {| trace := []; log := [called "eth1"] |}
             {| trace := []; log := [called "eth1"; called "eth2"] |} eq_refl).
    apply (answers_cons _ _ _ "eth2" []
             {| trace := []; log := [called "eth1"] |}
             {| trace := []; log := [called "eth1"; called "eth2"] |}
             {| trace := []; log := [called "eth1"; called "eth2"] |} eq_refl).
    apply answers_nil.
Defined.

(** The same on the ifupdown class, which inherits the default: one
    [ifup] is run, for [eth0], and none for [eth1]. *)
Example ifupdown_bring_up_interfaces_eth0_fails :
  bring_up_interfaces IfUpDownActivator ["eth0"; "eth1"] Machines.eth0_broken initial
  = (Ret false,
     {| trace := [EvSubp ["ifup"; "eth0"]
                    (Raised (ProcessExecutionError ["ifup"; "eth0"]))];
        log := [util_logexc "Running interface command %s failed"
                  ["ifup"; "eth0"]] |}).
Proof. reflexivity. Qed.

(** When the first interface comes up, the second is tried. *)
Example ifupdown_bring_up_interfaces_eth1_eth0 :
  bring_up_interfaces IfUpDownActivator ["eth1"; "eth0"; "eth2"]
    Machines.eth0_broken initial
  = (Ret false,
     {| trace := [EvSubp ["ifup"; "eth1"]
                    (Returned "" "RTNETLINK answers: File exists");
                  EvSubp ["ifup"; "eth0"]
                    (Raised (ProcessExecutionError ["ifup"; "eth0"]))];
        log := [LOG_warning "Received stderr output: %s"
                  [AStr "RTNETLINK answers: File exists"];
                util_logexc "Running interface command %s failed"
                  ["ifup"; "eth0"]] |}).
Proof. reflexivity. Qed.

(** C6.  On the netplan class, [bring_up_interface],
    [bring_down_interface] and [bring_up_interfaces] are one and the
    same run, whatever names they are given: a debug line, then the one
    command [netplan apply] through the bridge with [warn_on_stderr]
    off.  The run adds that single command to the trace and no
    [LOG.warning] call to the log: stderr output goes to [LOG.debug]. *)
Theorem netplan_single_global_apply device_name device_name' device_names w st :
  let r := w_subp w (trace st) ["netplan"; "apply"] in
  let applied :=
    bridged r false
      (add_event (EvSubp ["netplan"; "apply"] r)
         (add_log (LOG_debug
                     "Calling 'netplan apply' rather than altering individual interfaces"
                     []) st)) in
  bring_up_interface NetplanActivator device_name w st = applied /\
  bring_down_interface NetplanActivator device_name' w st = applied /\
  bring_up_interfaces NetplanActivator device_names w st = applied /\
  trace (snd applied) = trace st ++ [EvSubp ["netplan"; "apply"] r] /\
  (forall fmt args, In (LOG_warning fmt args) (log (snd applied)) ->
                    In (LOG_warning fmt args) (log st)).
Proof.
  intros r applied.
  assert (forall dev : string,
             (emit (LOG_debug
                      "Calling 'netplan apply' rather than altering individual interfaces"
                      []) ;;
              _alter_interface NetplanActivator.NETPLAN_CMD "all" false) w st
             = applied) as Hrun.
  { intros _. unfold bind, emit. rewrite _alter_interface_run. reflexivity. }
  split; [exact (Hrun device_name) |].
  split; [exact (Hrun device_name') |].
  split; [exact (Hrun "all") |].
  split.
  - unfold applied. rewrite bridged_trace. reflexivity.
  - intros fmt args. unfold applied, bridged.
    destruct r as [out err | e]; simpl.
    + destruct (String.length err =? 0); simpl; rewrite ?in_app_iff; simpl.
      * intros [H | [H | []]]; [exact H | discriminate H].
      * intros [[H | [H | []]] | [H | []]];
          [exact H | discriminate H | discriminate H].
    + destruct e; simpl; rewrite ?in_app_iff; simpl;
        try (intros [H | [H | []]]; [exact H | discriminate H]).
      intros [[H | [H | []]] | [H | []]];
        [exact H | discriminate H | discriminate H].
Qed.

Example netplan_ignores_the_names :
  bring_up_interface NetplanActivator "eth0" Machines.eth0_broken initial
  = (Ret true,
     {| trace := [EvSubp ["netplan"; "apply"]
                    (Returned "" "RTNETLINK answers: File exists")];
        log := [LOG_debug
                  "Calling 'netplan apply' rather than altering individual interfaces"
                  [];
                LOG_debug "Received stderr output: %s"
                  [AStr "RTNETLINK answers: File exists"]] |}) /\
  bring_down_interface NetplanActivator "eth7" Machines.eth0_broken initial
  = bring_up_interface NetplanActivator "eth0" Machines.eth0_broken initial /\
  bring_up_interfaces NetplanActivator ["eth0"; "eth1"] Machines.eth0_broken initial
  = bring_up_interface NetplanActivator "eth0" Machines.eth0_broken initial.
Proof. repeat split. Qed.

(** ** NetworkManager *)

(** C10.  When [conn_filename] finds no connection file, the
    NetworkManager [bring_up_interface] logs a warning and returns
    false; the look-up is the only event it adds, so it has run no
    command. *)
Theorem nm_bring_up_interface_no_file device_name w st :
  w_conn_filename w (trace st) device_name = None ->
  bring_up_interface NetworkManagerActivator device_name w st =
    (Ret false,
     {| trace := trace st ++ [EvConnFilename device_name None];
        log := log st ++
               [LOG_warning
                  "Unable to find an interface config file. Unable to bring up interface."
                  []] |}) /\
  commands (trace st ++ [EvConnFilename device_name None]) = commands (trace st).
Proof.
  intros H. split.
  - unfold bring_up_interface, NetworkManagerActivator.bring_up_interface,
      bind, conn_filename, probe.
    rewrite H. reflexivity.
  - unfold commands. rewrite filter_app. simpl. apply app_nil_r.
Qed.

Lemma nm_bring_up_interface_no_file_witness :
  bring_up_interface NetworkManagerActivator "eth0" Machines.bare initial =
    (Ret false,
     {| trace := [EvConnFilename "eth0" None];
        log := [LOG_warning
                  "Unable to find an interface config file. Unable to bring up interface."
                  []] |}).
Proof.
  exact (proj1 (nm_bring_up_interface_no_file "eth0" Machines.bare initial eq_refl)).
Defined.

(** C7.  On a machine whose commands fail only with process execution
    failures, and where [conn_filename] finds the file [filename]: the
    NetworkManager [bring_up_interface] runs [nmcli connection load
    filename]; when that fails it runs [nmcli connection reload] and
    then [nmcli connection up ifname device_name]; when it succeeds it
    runs [nmcli connection up filename filename].  The result tells
    whether the last command succeeded, and no other command is run. *)
Theorem nm_bring_up_interface_fallback device_name filename w st :
  only_expected_failures w ->
  w_conn_filename w (trace st) device_name = Some filename ->
  let load := ["nmcli"; "connection"; "load"; filename] in
  let reload := ["nmcli"; "connection"; "reload"] in
  let up_ifname := ["nmcli"; "connection"; "up"; "ifname"; device_name] in
  let up_filename := ["nmcli"; "connection"; "up"; "filename"; filename] in
  let tr0 := trace st ++ [EvConnFilename device_name (Some filename)] in
  let r_load := w_subp w tr0 load in
  let tr1 := tr0 ++ [EvSubp load r_load] in
  (succeeded r_load = false ->
   let r_reload := w_subp w tr1 reload in
   let tr2 := tr1 ++ [EvSubp reload r_reload] in
   let r_up := w_subp w tr2 up_ifname in
   exists st',
     bring_up_interface NetworkManagerActivator device_name w st
       = (Ret (succeeded r_up), st') /\
     trace st' = tr2 ++ [EvSubp up_ifname r_up]) /\
  (succeeded r_load = true ->
   let r_up := w_subp w tr1 up_filename in
   exists st',
     bring_up_interface NetworkManagerActivator device_name w st
       = (Ret (succeeded r_up), st') /\
     trace st' = tr1 ++ [EvSubp up_filename r_up]).
Proof.
  intros Hw Hfile load reload up_ifname up_filename tr0 r_load tr1.
  assert (forall tr cmd, expected (w_subp w tr cmd) = true) as Hexp
    by (intros tr cmd; apply (Hw tr)).
  set (st0 := add_event (EvConnFilename device_name (Some filename)) st).
  assert (bring_up_interface NetworkManagerActivator device_name w st =
          (loaded <- _alter_interface load device_name true ;;
           cmd <- (if loaded then ret up_filename
                   else _alter_interface reload device_name true ;; ret up_ifname) ;;
           _alter_interface cmd device_name true) w st0) as Hrun.
  { unfold bring_up_interface, NetworkManagerActivator.bring_up_interface.
    unfold bind at 1. unfold conn_filename, probe. rewrite Hfile. reflexivity. }
  rewrite Hrun. clear Hrun.
  pose proof (_alter_interface_run load device_name true w st0) as Hload.
  change (w_subp w (trace st0) load) with r_load in Hload.
  destruct (bridged_expected r_load true
              (add_event (EvSubp load r_load) st0) (Hexp _ _)) as [s1 Hs1].
  pose proof (bridged_trace r_load true (add_event (EvSubp load r_load) st0)) as Ht1.
  rewrite Hs1 in Hload, Ht1. simpl in Ht1. fold tr0 tr1 in Ht1.
  rewrite (bind_Ret _ _ _ _ _ _ Hload).
  split; intros Hl; rewrite Hl.
  - intros r_reload tr2 r_up.
    pose proof (_alter_interface_run reload device_name true w s1) as Hreload.
    rewrite Ht1 in Hreload. fold r_reload in Hreload.
    destruct (bridged_expected r_reload true
                (add_event (EvSubp reload r_reload) s1) (Hexp _ _)) as [s2 Hs2].
    pose proof (bridged_trace r_reload true
                  (add_event (EvSubp reload r_reload) s1)) as Ht2.
    rewrite Hs2 in Hreload, Ht2. simpl in Ht2. rewrite Ht1 in Ht2. fold tr2 in Ht2.
    rewrite (bind_Ret _ _ _ _ (s2) up_ifname).
    2:{ rewrite (bind_Ret _ _ _ _ _ _ Hreload). reflexivity. }
    rewrite _alter_interface_run. rewrite Ht2. fold r_up.
    destruct (bridged_expected r_up true
                (add_event (EvSubp up_ifname r_up) s2) (Hexp _ _)) as [s3 Hs3].
    pose proof (bridged_trace r_up true (add_event (EvSubp up_ifname r_up) s2)) as Ht3.
    rewrite Hs3 in Ht3 |- *. simpl in Ht3. rewrite Ht2 in Ht3.
    exists s3. split; [reflexivity | exact Ht3].
  - intros r_up.
    rewrite (bind_Ret _ _ _ _ s1 up_filename) by reflexivity.
    rewrite _alter_interface_run. rewrite Ht1. fold r_up.
    destruct (bridged_expected r_up true
                (add_event (EvSubp up_filename r_up) s1) (Hexp _ _)) as [s3 Hs3].
    pose proof (bridged_trace r_up true (add_event (EvSubp up_filename r_up) s1)) as Ht3.
    rewrite Hs3 in Ht3 |- *. simpl in Ht3. rewrite Ht1 in Ht3.
    exists s3. split; [reflexivity | exact Ht3].
Qed.

Lemma bare_expected : only_expected_failures Machines.bare.
Proof. intros tr. repeat split. Qed.

Lemma nm_load_fails_expected : only_expected_failures Machines.nm_load_fails.
Proof.
  intros tr. repeat split. intros cmd. simpl.
  destruct (str_in "load" cmd); reflexivity.
Qed.

Lemma eth0_broken_expected : only_expected_failures Machines.eth0_broken.
Proof.
  intros tr. repeat split. intros cmd. simpl.
  destruct (str_in "eth0" cmd); reflexivity.
Qed.

Lemma no_systemd_expected : only_expected_failures Machines.no_systemd.
Proof.
  intros tr. repeat split. intros cmd. simpl.
  destruct (str_in "systemctl" cmd); reflexivity.
Qed.

Lemma nm_bring_up_interface_fallback_witness :
  let file := Machines.eth0_nmconnection in
  let failure := Raised (ProcessExecutionError ["nmcli"; "connection"; "load"; file]) in
  (exists st',
      bring_up_interface NetworkManagerActivator "eth0" Machines.nm_load_fails initial
        = (Ret true, st') /\
      trace st' =
        [EvConnFilename "eth0" (Some file);
         EvSubp ["nmcli"; "connection"; "load"; file] failure;
         EvSubp ["nmcli"; "connection"; "reload"] (Returned "" "");
         EvSubp ["nmcli"; "connection"; "up"; "ifname"; "eth0"] (Returned "" "")]) /\
  (exists st',
      bring_up_interface NetworkManagerActivator "eth0" Machines.nm_works initial
        = (Ret true, st') /\
      trace st' =
        [EvConnFilename "eth0" (Some file);
         EvSubp ["nmcli"; "connection"; "load"; file] (Returned "" "");
         EvSubp ["nmcli"; "connection"; "up"; "filename"; file] (Returned "" "")]).
Proof.
  intros file failure. split.
  - exact (proj1 (nm_bring_up_interface_fallback "eth0" file
                    Machines.nm_load_fails initial nm_load_fails_expected eq_refl)
             eq_refl).
  - exact (proj2 (nm_bring_up_interface_fallback "eth0" file
                    Machines.nm_works initial bare_expected eq_refl)
             eq_refl).
Defined.

(** The run on the failing machine, in full: the reload and the second
    attempt follow the failed load. *)
Example nm_bring_up_interface_load_fails :
  bring_up_interface NetworkManagerActivator "eth0" Machines.nm_load_fails initial
  = (Ret true,
     {| trace :=
          [EvConnFilename "eth0" (Some Machines.eth0_nmconnection);
           EvSubp ["nmcli"; "connection"; "load"; Machines.eth0_nmconnection]
             (Raised (ProcessExecutionError
                        ["nmcli"; "connection"; "load"; Machines.eth0_nmconnection]));
           EvSubp ["nmcli"; "connection"; "reload"] (Returned "" "");
           EvSubp ["nmcli"; "connection"; "up"; "ifname"; "eth0"] (Returned "" "")];
        log := [util_logexc "Running interface command %s failed"
                  ["nmcli"; "connection"; "load"; Machines.eth0_nmconnection]] |}).
Proof. reflexivity. Qed.

(** ** Which operations absorb a command failure *)

Lemma bridged_external_absorbs oracle ev warn_on_stderr w st :
  expected (oracle w (trace st)) = true ->
  (forall r, command_succeeded (ev r) = succeeded r) ->
  absorbs (_alter_interface_callable (external oracle ev) warn_on_stderr) w st.
Proof.
  intros H Hev. unfold absorbs. rewrite bridged_external.
  set (r := oracle w (trace st)) in *.
  destruct (bridged_expected r warn_on_stderr (add_event (ev r) st) H) as [st' E].
  pose proof (bridged_trace r warn_on_stderr (add_event (ev r) st)) as Ht.
  rewrite E in Ht. simpl in Ht.
  exists (succeeded r), st'. split; [exact E |].
  intros Hr. exists (trace st), (ev r). split; [exact Ht |].
  rewrite Hev. exact Hr.
Qed.

Lemma _alter_interface_absorbs w cmd device_name warn_on_stderr st :
  only_expected_failures w ->
  absorbs (_alter_interface cmd device_name warn_on_stderr) w st.
Proof.
  intros Hw. unfold _alter_interface, subp.subp.
  apply bridged_external_absorbs; [apply (Hw (trace st)) | reflexivity].
Qed.

Lemma absorbs_returns m w st :
  absorbs m w st -> exists b st', m w st = (Ret b, st').
Proof. intros (b & st' & H & _). eauto. Qed.

Lemma all_returns {A} (f : A -> M bool) w :
  (forall x st, exists b st', f x w st = (Ret b, st')) ->
  forall l st, exists b st', all f l w st = (Ret b, st').
Proof.
  intros Hf l. induction l as [| x xs IH]; intros st; simpl.
  - eexists; eexists; reflexivity.
  - destruct (Hf x st) as (b & st1 & Hx). rewrite (bind_Ret _ _ _ _ _ _ Hx).
    destruct b; [apply IH | eexists; eexists; reflexivity].
Qed.

Lemma bring_up_interface_absorbs w cls device_name st :
  only_expected_failures w ->
  absorbs (bring_up_interface cls device_name) w st.
Proof.
  intros Hw. destruct cls; simpl.
  - apply _alter_interface_absorbs, Hw.
  - apply _alter_interface_absorbs, Hw.
  - unfold absorbs, NetworkManagerActivator.bring_up_interface.
    unfold bind at 1. unfold conn_filename, probe.
    destruct (w_conn_filename w (trace st) device_name) as [filename |].
    2:{ eexists; eexists. split; [reflexivity | discriminate]. }
    destruct (absorbs_returns _ _ _
                (_alter_interface_absorbs w ["nmcli"; "connection"; "load"; filename]
                   device_name true
                   (add_event (EvConnFilename device_name (Some filename)) st) Hw))
      as (loaded & s1 & Hload).
    rewrite (bind_Ret _ _ _ _ _ _ Hload).
    destruct loaded.
    + unfold bind, ret. apply _alter_interface_absorbs, Hw.
    + destruct (absorbs_returns _ _ _
                  (_alter_interface_absorbs w ["nmcli"; "connection"; "reload"]
                     device_name true s1 Hw)) as (b2 & s2 & Hreload).
      unfold bind at 1. rewrite (bind_Ret _ _ _ _ _ _ Hreload).
      unfold ret. apply _alter_interface_absorbs, Hw.
  - unfold absorbs, NetplanActivator.bring_up_interface, bind, emit.
    apply _alter_interface_absorbs, Hw.
  - apply bridged_external_absorbs; [apply (Hw (trace st)) | reflexivity].
Qed.

Lemma bring_down_interface_absorbs w cls device_name st :
  only_expected_failures w ->
  absorbs (bring_down_interface cls device_name) w st.
Proof.
  intros Hw. destruct cls; simpl.
  - apply _alter_interface_absorbs, Hw.
  - apply _alter_interface_absorbs, Hw.
  - apply _alter_interface_absorbs, Hw.
  - unfold absorbs, NetplanActivator.bring_down_interface, bind, emit.
    apply _alter_interface_absorbs, Hw.
  - apply bridged_external_absorbs; [apply (Hw (trace st)) | reflexivity].
Qed.

Lemma list_comp_names network_state w st :
  all_named network_state = true ->
  exists device_names,
    list_comp (fun i => getitem i "name") network_state w st = (Ret device_names, st).
Proof.
  induction network_state as [| i rest IH]; intros H.
  - exists []. reflexivity.
  - unfold all_named in H. cbn [forallb] in H.
    apply andb_true_iff in H as [Hi Hrest].
    destruct (dict_get i "name") as [name |] eqn:E; [| discriminate Hi].
    destruct (IH Hrest) as (device_names & Hrun).
    exists (name :: device_names). cbn [list_comp].
    assert (getitem i "name" w st = (Ret name, st)) as Hget
      by (unfold getitem; rewrite E; reflexivity).
    rewrite (bind_Ret _ _ _ _ _ _ Hget).
    rewrite (bind_Ret _ _ _ _ _ _ Hrun). reflexivity.
Qed.

Lemma bring_up_interfaces_returns w cls device_names st :
  only_expected_failures w ->
  cls <> NetworkManagerActivator ->
  exists b st', bring_up_interfaces cls device_names w st = (Ret b, st').
Proof.
  intros Hw Hcls.
  assert (forall c l s, exists b st',
             NetworkActivator.bring_up_interfaces (bring_up_interface c) l w s
             = (Ret b, st')) as Hdefault.
  { intros c l s. apply all_returns. intros x s0.
    apply absorbs_returns, bring_up_interface_absorbs, Hw. }
  destruct cls.
  - exact (Hdefault IfUpDownActivator device_names st).
  - exact (Hdefault IfConfigActivator device_names st).
  - contradiction Hcls. reflexivity.
  - simpl. unfold NetplanActivator.bring_up_interfaces, bind, emit.
    apply absorbs_returns, _alter_interface_absorbs, Hw.
  - exact (Hdefault NetworkdActivator device_names st).
Qed.

Lemma bring_up_all_interfaces_returns w cls network_state st :
  only_expected_failures w ->
  cls <> NetworkManagerActivator ->
  all_named network_state = true ->
  exists b st', bring_up_all_interfaces cls network_state w st = (Ret b, st').
Proof.
  intros Hw Hcls Hnamed.
  assert (forall c, c <> NetworkManagerActivator ->
             exists b st',
               NetworkActivator.bring_up_all_interfaces (bring_up_interfaces c)
                 network_state w st = (Ret b, st')) as Hdefault.
  { intros c Hc. unfold NetworkActivator.bring_up_all_interfaces.
    destruct (list_comp_names network_state w st Hnamed) as (device_names & Hrun).
    rewrite (bind_Ret _ _ _ _ _ _ Hrun).
    apply bring_up_interfaces_returns; assumption. }
  destruct cls.
  - exact (Hdefault IfUpDownActivator Hcls).
  - exact (Hdefault IfConfigActivator Hcls).
  - contradiction Hcls. reflexivity.
  - apply absorbs_returns. simpl. unfold NetplanActivator.bring_up_all_interfaces.
    apply _alter_interface_absorbs, Hw.
  - apply absorbs_returns. simpl. unfold NetworkdActivator.bring_up_all_interfaces.
    apply _alter_interface_absorbs, Hw.
Qed.

(** C3, as the code has it.  On a machine whose commands fail only
    with process execution failures, [bring_up_interface] and
    [bring_down_interface] of every class return a boolean without
    raising, and return true only if the last command they ran
    succeeded; [bring_up_interfaces] and, on interfaces that all have a
    name, [bring_up_all_interfaces] of every class but the
    NetworkManager one return a boolean without raising.  The networkd
    [wait_for_network] is not bridged: what its [systemctl start]
    raises, it raises. *)
Theorem bridged_operations_return_bool w cls st :
  only_expected_failures w ->
  (forall device_name, absorbs (bring_up_interface cls device_name) w st) /\
  (forall device_name, absorbs (bring_down_interface cls device_name) w st) /\
  (cls <> NetworkManagerActivator ->
   (forall device_names,
     exists b st', bring_up_interfaces cls device_names w st = (Ret b, st')) /\
   (forall network_state,
     all_named network_state = true ->
     exists b st', bring_up_all_interfaces cls network_state w st = (Ret b, st'))) /\
  (forall e,
     w_subp w (trace st)
       ["systemctl"; "start"; "systemd-networkd-wait-online.service"] = Raised e ->
     exists st', wait_for_network NetworkdActivator w st = (Raise e, st')).
Proof.
  intros Hw. split; [| split; [| split]].
  - intros device_name. apply bring_up_interface_absorbs, Hw.
  - intros device_name. apply bring_down_interface_absorbs, Hw.
  - intros Hcls. split.
    + intros device_names. apply bring_up_interfaces_returns; assumption.
    + intros network_state Hnamed.
      apply bring_up_all_interfaces_returns; assumption.
  - intros e He. simpl.
    unfold NetworkdActivator.wait_for_network, bind, subp.subp, external.
    rewrite He. eexists. reflexivity.
Qed.

Lemma bridged_operations_return_bool_witness :
  only_expected_failures Machines.eth0_broken /\
  absorbs (bring_up_interface IfUpDownActivator "eth0") Machines.eth0_broken initial /\
  absorbs (bring_down_interface IfUpDownActivator "eth0") Machines.eth0_broken initial /\
  (exists b st',
      bring_up_interfaces IfUpDownActivator ["eth1"; "eth0"] Machines.eth0_broken
        initial = (Ret b, st')) /\
  (exists b st',
      bring_up_all_interfaces IfUpDownActivator
        [[("name", "eth1"); ("type", "physical")]; [("name", "eth0")]]
        Machines.eth0_broken initial = (Ret b, st')) /\
  only_expected_failures Machines.no_systemd /\
  exists st',
    wait_for_network NetworkdActivator Machines.no_systemd initial
    = (Raise (ProcessExecutionError
                ["systemctl"; "start"; "systemd-networkd-wait-online.service"]),
       st').
Proof.
  split; [exact eth0_broken_expected |].
  destruct (bridged_operations_return_bool Machines.eth0_broken IfUpDownActivator
              initial eth0_broken_expected) as (Hup & Hdown & Hall & _).
  split; [exact (Hup "eth0") |]. split; [exact (Hdown "eth0") |].
  destruct Hall as [Hnames Hstate]; [discriminate |].
  split; [apply Hnames |]. split; [apply Hstate; reflexivity |].
  split; [exact no_systemd_expected |].
  destruct (bridged_operations_return_bool Machines.no_systemd NetworkdActivator
              initial no_systemd_expected) as (_ & _ & _ & Hwait).
  apply Hwait. reflexivity.
Defined.

(** C3, as stated, fails.  With no service manager answering, every
    command fails with a process execution failure only, yet the
    NetworkManager [bring_up_interfaces] raises, from its
    [systemctl show], which it runs outside the bridge; and so does the
    networkd [wait_for_network]. *)
Lemma unbridged_operations_raise :
  only_expected_failures Machines.no_systemd /\
  bring_up_interfaces NetworkManagerActivator ["eth0"] Machines.no_systemd initial
  = (let cmd := ["systemctl"; "show"; "--property=SubState";
                 "NetworkManager.service"] in
     (Raise (ProcessExecutionError cmd),
      {| trace := [EvSubp cmd (Raised (ProcessExecutionError cmd))]; log := [] |})) /\
  wait_for_network NetworkdActivator Machines.no_systemd initial
  = (let cmd := ["systemctl"; "start"; "systemd-networkd-wait-online.service"] in
     (Raise (ProcessExecutionError cmd),
      {| trace := [EvSubp cmd (Raised (ProcessExecutionError cmd))]; log := [] |})).
Proof.
  split; [exact no_systemd_expected |]. split; reflexivity.
Qed.

(** The NetworkManager [bring_up_interfaces] at work where the service
    manager answers: the sub-state is read first, a state other than
    running is only warned about, the service is reloaded, and then
    the interfaces are brought up one by one. *)
Example nm_bring_up_interfaces_runs :
  bring_up_interfaces NetworkManagerActivator ["eth0"] Machines.nm_works initial
  = (Ret true,
     {| trace :=
          [EvSubp ["systemctl"; "show"; "--property=SubState";
                   "NetworkManager.service"] (Returned "" "");
           EvSubp ["systemctl"; "try-reload-or-restart"; "NetworkManager.service"]
             (Returned "" "");
           EvConnFilename "eth0" (Some Machines.eth0_nmconnection);
           EvSubp ["nmcli"; "connection"; "load"; Machines.eth0_nmconnection]
             (Returned "" "");
           EvSubp ["nmcli"; "connection"; "up"; "filename";
                   Machines.eth0_nmconnection] (Returned "" "")];
        log := [LOG_warning
                  "Expected NetworkManager SubState=running, but detected: %s"
                  [AStr ""]] |}).
Proof. reflexivity. Qed.

(** * Beyond the claims *)

(** ** Sequences of calls, read backwards *)

Section Inversion.

Context {A : Type}.
Variables (f : A -> M bool) (w : world).


Lemma next_where_inv l st x st' :
  next_where f l w st = (Ret (Some x), st') ->
  exists before after st1,
    l = before ++ x :: after /\
    answers f false w before st st1 /\
    f x w st1 = (Ret true, st').
Proof.
  revert st. induction l as [| y ys IH]; intros st H.
  - discriminate H.
  - cbn [next_where] in H. unfold bind in H.
    destruct (f y w st) as [[[|] | e] s1] eqn:Hy.
    + inversion H; subst. exists [], ys, st.
      split; [reflexivity |]. split; [constructor | exact Hy].
    + destruct (IH s1 H) as (before & after & st1 & -> & Hb & Hx).
      exists (y :: before), after, st1.
      split; [reflexivity |]. split; [econstructor; eassumption | exact Hx].
    + discriminate H.
Qed.

End Inversion.



(** ** Selection, further *)

Lemma not_all_known priority :
  forallb known priority = false ->
  existsb (fun i => negb (known i)) priority = true.
Proof.
  induction priority as [| x xs IH]; cbn [forallb existsb]; intros H.
  - discriminate H.
  - destruct (known x); cbn [negb andb orb] in *; [apply IH, H | reflexivity].
Qed.

Lemma available_call cls w st :
  exists b e,
    available cls w st = (Ret b, add_event e st) /\ probe_call cls e = true.
Proof. destruct cls; eexists; eexists; split; reflexivity. Qed.

Lemma next_where_available_calls classes w st :
  exists probed rest probes,
    classes = probed ++ rest /\
    Forall2 (fun cls e => probe_call cls e = true) probed probes /\
    snd (next_where available classes w st)
      = {| trace := trace st ++ probes; log := log st |}.
Proof.
  revert st. induction classes as [| c cs IH]; intros st.
  - exists [], [], []. simpl. rewrite app_nil_r. destruct st.
    split; [reflexivity |]. split; [constructor | reflexivity].
  - destruct (available_call c w st) as (b & e & Hc & He).
    cbn [next_where]. rewrite (bind_Ret _ _ _ _ _ _ Hc). destruct b.
    + exists [c], cs, [e]. split; [reflexivity |].
      split; [repeat constructor; exact He | reflexivity].
    + destruct (IH (add_event e st)) as (probed & rest & probes & -> & Hp & Hs).
      exists (c :: probed), rest, (e :: probes). split; [reflexivity |].
      split; [constructor; assumption |].
      rewrite Hs. simpl. rewrite <- app_assoc. reflexivity.
Qed.

(** X3.  Selection only probes.  Whatever the priority list, the
    calls [search_activator] makes are the availability probes of the
    entries of a front part of the list, one call per entry, in list
    order, each the call of the class the entry names ([available()] of
    the renderer module, or [subp.which] for [ifconfig] in [/sbin]).
    It makes no other call, and no logging call. *)
Theorem search_activator_only_probes priority w st :
  exists probed rest probes,
    priority = probed ++ rest /\
    Forall2 (fun name e => exists cls, names name cls /\ probe_call cls e = true)
      probed probes /\
    snd (search_activator priority w st)
      = {| trace := trace st ++ probes; log := log st |}.
Proof.
  destruct (forallb known priority) eqn:Hk.
  - destruct (search_activator_known priority w st Hk) as (cs & Hcs & ->).
    destruct (next_where_available_calls cs w st)
      as (cs1 & cs2 & probes & -> & Hp & Hs).
    apply Forall2_app_inv_r in Hcs as (probed & rest & Hcs1 & _ & ->).
    exists probed, rest, probes. split; [reflexivity |]. split; [| exact Hs].
    clear Hs Hk. revert probes Hp.
    induction Hcs1 as [| n c ns cs Hn Hns IH]; intros probes Hp;
      inversion Hp; subst; constructor; eauto.
  - rewrite (search_activator_unknown priority w st (not_all_known _ Hk)).
    exists [], priority, []. simpl. rewrite app_nil_r. destruct st.
    split; [reflexivity |]. split; [constructor | reflexivity].
Qed.

(** On a machine with only networkd, the default list is probed up to
    networkd; [ifconfig] is not looked for. *)
Example search_activator_probes_front :
  snd (search_activator DEFAULT_PRIORITY Machines.networkd_only initial)
  = {| trace := [EvAvailable eni false; EvAvailable netplan false;
                 EvAvailable network_manager false; EvAvailable networkd true];
       log := [] |}.
Proof. reflexivity. Qed.






(** A probe that raises: the exception leaves [select_activator], from
    the state reached, and the probes after it are not run. *)
Example select_activator_probe_raises :
  select_activator_with Faults.mock_available None Machines.networkd_only initial
  = (Raise (OtherError "PermissionError"),
     {| trace := [EvAvailable eni false]; log := [] |}).
Proof. reflexivity. Qed.

Lemma select_activator_returns_known priority w st cls st' :
  select_activator priority w st = (Ret cls, st') ->
  forallb known (searched_list priority) = true.
Proof.
  intros H. destruct (forallb known (searched_list priority)) eqn:Hk; trivial.
  unfold select_activator in H. fold (searched_list priority) in H.
  rewrite (bind_Raise _ _ _ _ _ _
             (search_activator_unknown _ w st (not_all_known _ Hk))) in H.
  discriminate H.
Qed.

(** X1.  A class that [select_activator] returns was found by the
    search: it is named by an entry of the list searched, its
    availability probe answered true, and the probes of the entries
    before it, run in list order, answered false.  The one thing
    [select_activator] adds is a debug line that names the class and the
    list. *)
Theorem select_activator_sound priority w st cls st' :
  select_activator priority w st = (Ret cls, st') ->
  exists before name after st1 st2,
    searched_list priority = before ++ name :: after /\
    names name cls /\
    answers probe_of false w before st st1 /\
    available cls w st1 = (Ret true, st2) /\
    st' = add_log (LOG_debug "Using selected activator: %s from priority: %s"
                     [ACls cls; AList (searched_list priority)]) st2.
Proof.
  intros H.
  pose proof (select_activator_returns_known priority w st cls st' H) as Hk.
  destruct (search_activator_known _ w st Hk) as (cs & Hcs & Hs).
  unfold select_activator in H. fold (searched_list priority) in H.
  unfold bind in H. rewrite Hs in H.
  destruct (next_where available cs w st) as [[[c |] | e] s2] eqn:Hn;
    try discriminate H.
  unfold emit, ret in H. inversion H; subst c st'. clear H.
  destruct (next_where_inv _ _ _ _ _ _ Hn) as (l1 & l2 & st1 & -> & Hb & Hc).
  apply Forall2_app_inv_r in Hcs as (before & rest & Hbn & Hrest & Hsplit).
  inversion Hrest as [| name c after l2' Hname Hafter]; subst.
  exists before, name, after, st1, s2. repeat split; trivial.
  eapply answers_probe_of; eassumption.
Qed.

Lemma select_activator_sound_witness :
  exists before name after st1 st2,
    searched_list None = before ++ name :: after /\
    names name NetworkdActivator /\
    answers probe_of false Machines.networkd_only before initial st1 /\
    available NetworkdActivator Machines.networkd_only st1 = (Ret true, st2) /\
    {| trace := [EvAvailable eni false; EvAvailable netplan false;
                 EvAvailable network_manager false; EvAvailable networkd true];
       log := [LOG_debug "Using selected activator: %s from priority: %s"
                 [ACls NetworkdActivator; AList DEFAULT_PRIORITY]] |}
    = add_log (LOG_debug "Using selected activator: %s from priority: %s"
                 [ACls NetworkdActivator; AList (searched_list None)]) st2.
Proof.
  exact (select_activator_sound None Machines.networkd_only initial
           NetworkdActivator
           {| trace := [EvAvailable eni false; EvAvailable netplan false;
                        EvAvailable network_manager false;
                        EvAvailable networkd true];
              log := [LOG_debug "Using selected activator: %s from priority: %s"
                        [ACls NetworkdActivator; AList DEFAULT_PRIORITY]] |}
           eq_refl).
Defined.

(** ** The bridge, further *)

(** X12.  What [warn_on_stderr] changes.  For any callable, the bridge
    gives the same result and leaves the same trace, that of the
    callable alone, under both values of the flag.  It makes at most one
    logging call ([LOG.warning], [LOG.debug] or [util.logexc]).  The
    calls with the flag on are never [LOG.debug] calls, and the calls
    with the flag off are those with the flag on, each [LOG.warning]
    call replaced by the [LOG.debug] call of the same format and
    arguments: the [util.logexc] call of a failure is the same under
    both. *)
Theorem bridge_flag_changes_log_level_only callable w st :
  let ran := snd (callable w st) in
  exists result calls,
    _alter_interface_callable callable true w st
      = (result, {| trace := trace ran; log := log ran ++ calls |}) /\
    _alter_interface_callable callable false w st
      = (result, {| trace := trace ran; log := log ran ++ map at_debug calls |}) /\
    length calls <= 1 /\
    forallb (fun l => negb (is_LOG_debug l)) calls = true.
Proof.
  intros ran. unfold ran, _alter_interface_callable, try_except, bind.
  destruct (callable w st) as [[[out err] | e] s]; cbn [snd].
  - destruct (String.length err =? 0); cbn [negb].
    + exists (Ret true), []. cbn [map]. rewrite app_nil_r. destruct s.
      repeat split; auto.
    + exists (Ret true), [LOG_warning "Received stderr output: %s" [AStr err]].
      repeat split; auto.
  - destruct e;
      try solve [eexists (Raise _), []; cbn [map]; rewrite app_nil_r; destruct s;
                 repeat split; auto].
    exists (Ret false), [util_logexc "Running interface command %s failed" cmd].
    repeat split; auto.
Qed.

(** A command that succeeds and writes on stderr, under both flags. *)
Example bridge_flag_on_and_off :
  log (snd (_alter_interface ["ifup"; "eth1"] "eth1" true
              Machines.eth0_broken initial))
    = [LOG_warning "Received stderr output: %s"
         [AStr "RTNETLINK answers: File exists"]]
  /\ log (snd (_alter_interface ["ifup"; "eth1"] "eth1" false
                 Machines.eth0_broken initial))
     = [LOG_debug "Received stderr output: %s"
          [AStr "RTNETLINK answers: File exists"]]
  /\ log (snd (_alter_interface ["ifup"; "eth0"] "eth0" true
                 Machines.eth0_broken initial))
     = log (snd (_alter_interface ["ifup"; "eth0"] "eth0" false
                   Machines.eth0_broken initial)).
Proof. repeat split. Qed.

(** ** NetworkManager, further *)

(** X8.  The fallback of the NetworkManager [bring_up_interface] is
    for process execution failures only.  When [nmcli connection load]
    raises anything else, that exception leaves [bring_up_interface]:
    no reload and no bring-up is run, and nothing is logged. *)
Theorem nm_bring_up_interface_load_raises device_name filename e w st :
  w_conn_filename w (trace st) device_name = Some filename ->
  let load := ["nmcli"; "connection"; "load"; filename] in
  let tr0 := trace st ++ [EvConnFilename device_name (Some filename)] in
  w_subp w tr0 load = Raised e ->
  is_ProcessExecutionError e = false ->
  bring_up_interface NetworkManagerActivator device_name w st
    = (Raise e, {| trace := tr0 ++ [EvSubp load (Raised e)]; log := log st |}).
Proof.
  intros Hfile load tr0 Hload He.
  unfold bring_up_interface, NetworkManagerActivator.bring_up_interface.
  unfold bind at 1. unfold conn_filename, probe. rewrite Hfile.
  apply bind_Raise. rewrite _alter_interface_run. simpl. fold load tr0.
  rewrite Hload. destruct e; try reflexivity. discriminate He.
Qed.

Lemma nm_bring_up_interface_load_raises_witness :
  bring_up_interface NetworkManagerActivator "eth0" Faults.nm_load_crashes initial
  = (Raise (OtherError "UnicodeDecodeError"),
     {| trace :=
          [EvConnFilename "eth0" (Some Machines.eth0_nmconnection);
           EvSubp ["nmcli"; "connection"; "load"; Machines.eth0_nmconnection]
             (Raised (OtherError "UnicodeDecodeError"))];
        log := [] |}).
Proof.
  exact (nm_bring_up_interface_load_raises "eth0" Machines.eth0_nmconnection
           (OtherError "UnicodeDecodeError") Faults.nm_load_crashes initial
           eq_refl eq_refl eq_refl).
Defined.

Lemma nm_bring_up_interfaces_run device_names out err w st :
  w_subp w (trace st) nm_show = Returned out err ->
  let state := PyStr.rstrip out in
  let st1 :=
    {| trace := trace st ++ [EvSubp nm_show (Returned out err)];
       log := log st ++
              (if String.eqb "SubState=running" state then []
               else [LOG_warning
                       "Expected NetworkManager SubState=running, but detected: %s"
                       [AStr state]]) |} in
  bring_up_interfaces NetworkManagerActivator device_names w st
  = (reloaded <- _alter_interface nm_reload "all" true ;;
     if reloaded
     then all (bring_up_interface NetworkManagerActivator) device_names
     else ret false) w st1.
Proof.
  intros Hshow state st1.
  unfold bring_up_interfaces, NetworkManagerActivator.bring_up_interfaces.
  unfold bind at 1. unfold subp.subp, external. fold nm_show. rewrite Hshow.
  cbn [fst]. fold state. unfold bind at 1.
  destruct (String.eqb "SubState=running" state); cbn [negb].
  - unfold ret at 1. unfold st1, add_event. cbn [trace log].
    rewrite app_nil_r. reflexivity.
  - reflexivity.
Qed.

(** X5.  When the reload of the service fails, the NetworkManager
    [bring_up_interfaces] returns false and touches no interface: for
    any list of names, the two [systemctl] commands are all it runs. *)
Theorem nm_bring_up_interfaces_reload_fails device_names out err cmd w st :
  w_subp w (trace st) nm_show = Returned out err ->
  let tr1 := trace st ++ [EvSubp nm_show (Returned out err)] in
  w_subp w tr1 nm_reload = Raised (ProcessExecutionError cmd) ->
  exists st',
    bring_up_interfaces NetworkManagerActivator device_names w st
      = (Ret false, st') /\
    trace st' = tr1 ++ [EvSubp nm_reload (Raised (ProcessExecutionError cmd))].
Proof.
  intros Hshow tr1 Hreload.
  rewrite (nm_bring_up_interfaces_run device_names out err w st Hshow).
  unfold bind. rewrite _alter_interface_run. cbn [trace]. fold tr1.
  rewrite Hreload. simpl. eexists. split; reflexivity.
Qed.

Lemma nm_bring_up_interfaces_reload_fails_witness :
  exists st',
    bring_up_interfaces NetworkManagerActivator ["eth0"; "eth1"]
      Faults.nm_reload_fails initial = (Ret false, st') /\
    trace st' =
      [EvSubp nm_show
         (Returned ("SubState=running" ++ String (ascii_of_nat 10) "")%string "");
       EvSubp nm_reload (Raised (ProcessExecutionError nm_reload))].
Proof.
  exact (nm_bring_up_interfaces_reload_fails ["eth0"; "eth1"]
           ("SubState=running" ++ String (ascii_of_nat 10) "")%string ""
           nm_reload Faults.nm_reload_fails initial eq_refl eq_refl).
Defined.

(** X6.  When the sub-state was read and the reload succeeds, the
    NetworkManager [bring_up_interfaces] goes on as the default one
    does, with the same short circuit, from a state that holds the two
    [systemctl] commands.  A sub-state other than running costs one
    warning and changes nothing else; what [systemctl show] wrote on
    stderr is not logged, what the reload wrote is. *)
Theorem nm_bring_up_interfaces_reloaded device_names out err out' err' w st :
  w_subp w (trace st) nm_show = Returned out err ->
  let tr1 := trace st ++ [EvSubp nm_show (Returned out err)] in
  w_subp w tr1 nm_reload = Returned out' err' ->
  let state := PyStr.rstrip out in
  let st2 :=
    {| trace := tr1 ++ [EvSubp nm_reload (Returned out' err')];
       log := log st
              ++ (if String.eqb "SubState=running" state then []
                  else [LOG_warning
                          "Expected NetworkManager SubState=running, but detected: %s"
                          [AStr state]])
              ++ (if String.length err' =? 0 then []
                  else [LOG_warning "Received stderr output: %s" [AStr err']]) |} in
  bring_up_interfaces NetworkManagerActivator device_names w st
  = NetworkActivator.bring_up_interfaces
      (bring_up_interface NetworkManagerActivator) device_names w st2.
Proof.
  intros Hshow tr1 Hreload state st2.
  rewrite (nm_bring_up_interfaces_run device_names out err w st Hshow).
  unfold bind. rewrite _alter_interface_run. cbn [trace]. fold tr1 state.
  rewrite Hreload. unfold bridged, NetworkActivator.bring_up_interfaces.
  f_equal. unfold st2, add_event, add_log. cbn [trace log].
  destruct (String.length err' =? 0).
  - rewrite app_nil_r. reflexivity.
  - rewrite <- app_assoc. reflexivity.
Qed.

Lemma nm_bring_up_interfaces_reloaded_witness :
  bring_up_interfaces NetworkManagerActivator ["eth0"] Faults.nm_dead initial
  = NetworkActivator.bring_up_interfaces
      (bring_up_interface NetworkManagerActivator) ["eth0"] Faults.nm_dead
      {| trace := [EvSubp nm_show (Returned "SubState=dead" "");
                   EvSubp nm_reload (Returned "" "")];
         log := [LOG_warning
                   "Expected NetworkManager SubState=running, but detected: %s"
                   [AStr "SubState=dead"]] |}.
Proof.
  exact (nm_bring_up_interfaces_reloaded ["eth0"] "SubState=dead" "" "" ""
           Faults.nm_dead initial eq_refl eq_refl).
Defined.

(** ** Trailing whitespace *)

Lemma rstrip_all_space ws : all_space ws = true -> PyStr.rstrip ws = "".
Proof.
  induction ws as [| c ws IH]; [reflexivity |].
  unfold all_space. cbn [list_ascii_of_string forallb]. intros H.
  apply andb_true_iff in H as [Hc Hws].
  cbn [PyStr.rstrip]. rewrite (IH Hws), Hc. reflexivity.
Qed.

Lemma rstrip_app_space s ws :
  all_space ws = true -> PyStr.rstrip (s ++ ws)%string = PyStr.rstrip s.
Proof.
  intros H. induction s as [| c s IH].
  - simpl. apply rstrip_all_space, H.
  - cbn [String.append PyStr.rstrip]. rewrite IH. reflexivity.
Qed.

Lemma rstrip_split s :
  exists ws, s = (PyStr.rstrip s ++ ws)%string /\ all_space ws = true.
Proof.
  induction s as [| c s (ws & Hs & Hws)].
  - exists "". split; reflexivity.
  - cbn [PyStr.rstrip]. destruct (PyStr.rstrip s) as [| d r] eqn:E.
    + simpl in Hs. subst ws. destruct (PyStr.isspace c) eqn:Hc.
      * exists (String c s). split; [reflexivity |].
        unfold all_space. cbn [list_ascii_of_string forallb].
        rewrite Hc. exact Hws.
      * exists s. split; [reflexivity | exact Hws].
    + exists ws. split; [| exact Hws].
      cbn [String.append]. f_equal. exact Hs.
Qed.

(** X7.  The sub-state test of the NetworkManager
    [bring_up_interfaces] passes, and the warning is skipped, exactly
    when [systemctl show] printed [SubState=running] followed by
    whitespace only. *)
Theorem nm_substate_running_up_to_whitespace out :
  String.eqb "SubState=running" (PyStr.rstrip out) = true <->
  exists ws, out = ("SubState=running" ++ ws)%string /\ all_space ws = true.
Proof.
  split.
  - intros H. apply String.eqb_eq in H.
    destruct (rstrip_split out) as (ws & Hs & Hws).
    exists ws. rewrite <- H in Hs. split; assumption.
  - intros (ws & -> & Hws). rewrite (rstrip_app_space _ _ Hws). reflexivity.
Qed.

(** ** One interface, one command *)

Lemma _alter_interface_trace cmd device_name warn_on_stderr w st :
  trace (snd (_alter_interface cmd device_name warn_on_stderr w st))
  = trace st ++ [EvSubp cmd (w_subp w (trace st) cmd)].
Proof. rewrite _alter_interface_run. apply bridged_trace. Qed.

Lemma bridged_link_trace oracle ev warn_on_stderr w st :
  trace (snd (_alter_interface_callable (external oracle ev) warn_on_stderr w st))
  = trace st ++ [ev (oracle w (trace st))].
Proof. rewrite bridged_external. apply bridged_trace. Qed.

(** X9.  Outside netplan, taking an interface down runs exactly one
    command, and that command is about the interface named; so does
    bringing one up, outside netplan and NetworkManager.  This holds
    whether the command succeeds, fails or raises. *)
Theorem primitives_run_one_command_on_the_device cls device_name w st :
  cls <> NetplanActivator ->
  (exists e,
      trace (snd (bring_down_interface cls device_name w st)) = trace st ++ [e] /\
      is_command e = true /\ event_device device_name e = true) /\
  (cls <> NetworkManagerActivator ->
   exists e,
      trace (snd (bring_up_interface cls device_name w st)) = trace st ++ [e] /\
      is_command e = true /\ event_device device_name e = true).
Proof.
  intros Hnetplan. split; [| intros Hnm];
    destruct cls; try (contradiction Hnetplan; reflexivity);
    try (contradiction Hnm; reflexivity); simpl;
    try (eexists; split; [apply _alter_interface_trace |];
         split; [reflexivity |]; simpl;
         rewrite ?String.eqb_refl, ?orb_true_r; reflexivity);
    (eexists; split; [apply bridged_link_trace |];
     split; [reflexivity |]; simpl; apply String.eqb_refl).
Qed.

Lemma primitives_run_one_command_on_the_device_witness :
  (exists e,
      trace (snd (bring_down_interface NetworkManagerActivator "eth0"
                    Machines.eth0_broken initial)) = [] ++ [e] /\
      is_command e = true /\ event_device "eth0" e = true) /\
  (exists e,
      trace (snd (bring_up_interface NetworkdActivator "eth0"
                    Machines.eth0_broken initial)) = [] ++ [e] /\
      is_command e = true /\ event_device "eth0" e = true).
Proof.
  split.
  - apply (primitives_run_one_command_on_the_device NetworkManagerActivator "eth0"
             Machines.eth0_broken initial). discriminate.
  - apply (primitives_run_one_command_on_the_device NetworkdActivator "eth0"
             Machines.eth0_broken initial); discriminate.
Defined.

(** ** All the interfaces of a network state *)

Lemma list_comp_names_all network_state w st :
  all_named network_state = true ->
  exists device_names,
    Forall2 (fun i name => dict_get i "name" = Some name)
      network_state device_names /\
    list_comp (fun i => getitem i "name") network_state w st = (Ret device_names, st).
Proof.
  induction network_state as [| i rest IH]; intros H.
  - exists []. split; [constructor | reflexivity].
  - unfold all_named in H. cbn [forallb] in H.
    apply andb_true_iff in H as [Hi Hrest].
    destruct (dict_get i "name") as [name |] eqn:E; [| discriminate Hi].
    destruct (IH Hrest) as (device_names & Hall & Hrun).
    exists (name :: device_names). split; [constructor; assumption |].
    cbn [list_comp].
    assert (getitem i "name" w st = (Ret name, st)) as Hget
      by (unfold getitem; rewrite E; reflexivity).
    rewrite (bind_Ret _ _ _ _ _ _ Hget).
    rewrite (bind_Ret _ _ _ _ _ _ Hrun). reflexivity.
Qed.

Lemma list_comp_names_missing network_state w st :
  all_named network_state = false ->
  list_comp (fun i => getitem i "name") network_state w st
  = (Raise (KeyError "name"), st).
Proof.
  induction network_state as [| i rest IH]; intros H.
  - discriminate H.
  - unfold all_named in H. cbn [forallb] in H. cbn [list_comp].
    destruct (dict_get i "name") as [name |] eqn:E.
    + assert (getitem i "name" w st = (Ret name, st)) as Hget
        by (unfold getitem; rewrite E; reflexivity).
      rewrite (bind_Ret _ _ _ _ _ _ Hget).
      apply bind_Raise, IH, H.
    + apply bind_Raise. unfold getitem. rewrite E. reflexivity.
Qed.

(** X10.  Where [bring_up_all_interfaces] is the default one, the
    names are read off the network state before anything is brought
    up.  When every interface has a name, the call is
    [bring_up_interfaces] of the class on the names, in the order of the
    network state.  When one has none, [KeyError] is raised from the
    state of the call: no interface has been touched, not even those
    listed before the nameless one. *)
Theorem bring_up_all_interfaces_reads_names_first cls network_state w st :
  default_bring_up_all cls = true ->
  (all_named network_state = true ->
   exists device_names,
     Forall2 (fun i name => dict_get i "name" = Some name)
       network_state device_names /\
     bring_up_all_interfaces cls network_state w st
       = bring_up_interfaces cls device_names w st) /\
  (all_named network_state = false ->
   bring_up_all_interfaces cls network_state w st = (Raise (KeyError "name"), st)).
Proof.
  intros Hcls.
  assert (bring_up_all_interfaces cls network_state
          = NetworkActivator.bring_up_all_interfaces (bring_up_interfaces cls)
              network_state) as ->
    by (destruct cls; try discriminate Hcls; reflexivity).
  unfold NetworkActivator.bring_up_all_interfaces. split; intros Hnamed.
  - destruct (list_comp_names_all network_state w st Hnamed)
      as (device_names & Hall & Hrun).
    exists device_names. split; [exact Hall |].
    apply (bind_Ret _ _ _ _ _ _ Hrun).
  - apply bind_Raise, list_comp_names_missing, Hnamed.
Qed.

Lemma bring_up_all_interfaces_reads_names_first_witness :
  bring_up_all_interfaces IfUpDownActivator
    [[("name", "eth1")]; [("type", "bond")]] Machines.eth0_broken initial
  = (Raise (KeyError "name"), initial) /\
  exists device_names,
    Forall2 (fun i name => dict_get i "name" = Some name)
      [[("type", "physical"); ("name", "eth1")]; [("name", "eth0")]] device_names /\
    bring_up_all_interfaces IfConfigActivator
      [[("type", "physical"); ("name", "eth1")]; [("name", "eth0")]]
      Machines.eth0_broken initial
    = bring_up_interfaces IfConfigActivator device_names Machines.eth0_broken initial.
Proof.
  split.
  - apply (bring_up_all_interfaces_reads_names_first IfUpDownActivator
             [[("name", "eth1")]; [("type", "bond")]] Machines.eth0_broken initial);
      reflexivity.
  - apply (bring_up_all_interfaces_reads_names_first IfConfigActivator
             [[("type", "physical"); ("name", "eth1")]; [("name", "eth0")]]
             Machines.eth0_broken initial); reflexivity.
Defined.

(** ** Waiting for the network *)

(** X13.  [wait_for_network] exists for netplan and networkd only.  On
    the other classes it raises [NotImplementedError] and leaves the
    state as it is.  On networkd it runs one [systemctl start] outside
    the bridge.  On netplan it first asks whether NetworkManager is
    available: if so it returns at once, having run no command; if not
    it does what networkd does. *)
Theorem wait_for_network_support cls w st :
  (waits cls = false ->
   wait_for_network cls w st = (Raise NotImplementedError, st)) /\
  (cls = NetworkdActivator ->
   let start := ["systemctl"; "start"; "systemd-networkd-wait-online.service"] in
   let r := w_subp w (trace st) start in
   wait_for_network cls w st
   = (match r with Returned _ _ => Ret tt | Raised e => Raise e end,
      {| trace := trace st ++ [EvSubp start r]; log := log st |})) /\
  (cls = NetplanActivator ->
   let asked b := add_event (EvAvailable network_manager b) st in
   (w_available w (trace st) network_manager = true ->
    wait_for_network cls w st
    = (Ret tt,
       add_log (LOG_debug "NetworkManager is enabled, skipping networkd wait" [])
         (asked true)) /\
    commands (trace (snd (wait_for_network cls w st))) = commands (trace st)) /\
   (w_available w (trace st) network_manager = false ->
    wait_for_network cls w st
    = wait_for_network NetworkdActivator w (asked false))).
Proof.
  split; [| split].
  - intros H. destruct cls; try discriminate H; reflexivity.
  - intros -> start r. simpl.
    unfold NetworkdActivator.wait_for_network, bind, subp.subp, external.
    fold start r. destruct r; reflexivity.
  - intros -> asked. simpl.
    unfold NetplanActivator.wait_for_network, bind, module_available, probe.
    split; intros ->.
    + split; [reflexivity |]. simpl.
      unfold commands. rewrite filter_app. simpl. apply app_nil_r.
    + reflexivity.
Qed.

Lemma wait_for_network_support_witness :
  wait_for_network NetworkManagerActivator Machines.nm_works initial
    = (Raise NotImplementedError, initial) /\
  wait_for_network NetworkdActivator Machines.no_systemd initial
    = (Raise (ProcessExecutionError
                ["systemctl"; "start"; "systemd-networkd-wait-online.service"]),
       {| trace := [EvSubp ["systemctl"; "start";
                            "systemd-networkd-wait-online.service"]
                      (Raised (ProcessExecutionError
                                 ["systemctl"; "start";
                                  "systemd-networkd-wait-online.service"]))];
          log := [] |}) /\
  wait_for_network NetplanActivator Machines.nm_works initial
    = (Ret tt,
       {| trace := [EvAvailable network_manager true];
          log := [LOG_debug "NetworkManager is enabled, skipping networkd wait" []] |}) /\
  wait_for_network NetplanActivator Machines.no_systemd initial
    = wait_for_network NetworkdActivator Machines.no_systemd
        {| trace := [EvAvailable network_manager false]; log := [] |}.
Proof.
  split; [| split; [| split]].
  - apply (proj1 (wait_for_network_support NetworkManagerActivator
                    Machines.nm_works initial)). reflexivity.
  - exact (proj1 (proj2 (wait_for_network_support NetworkdActivator
                           Machines.no_systemd initial)) eq_refl).
  - exact (proj1 (proj1 (proj2 (proj2 (wait_for_network_support NetplanActivator
                                          Machines.nm_works initial)) eq_refl)
                    eq_refl)).
  - exact (proj2 (proj2 (proj2 (wait_for_network_support NetplanActivator
                                  Machines.no_systemd initial)) eq_refl)
             eq_refl).
Defined.

(** ** The registry, further *)

(** X15.  The registry and the default priority list agree.  An
    identifier is found in [NAME_TO_ACTIVATOR] exactly when it is in
    [DEFAULT_PRIORITY]; every class is registered; and no class is
    registered twice: one identifier selects it. *)
Theorem registry_one_to_one :
  (forall name, known name = true <-> exists cls, names name cls) /\
  (forall cls, exists name, names name cls /\ known name = true) /\
  (forall name name' cls, names name cls -> names name' cls -> name = name').
Proof.
  split; [| split].
  - intros name. split; [apply known_names |].
    intros [cls H]. unfold names in H.
    unfold known, str_in, DEFAULT_PRIORITY. simpl in *.
    destruct (String.eqb name "eni"); [reflexivity |].
    destruct (String.eqb name "netplan"); [reflexivity |].
    destruct (String.eqb name "network-manager"); [reflexivity |].
    destruct (String.eqb name "networkd"); [reflexivity |].
    destruct (String.eqb name "ifconfig"); [reflexivity | discriminate H].
  - intros cls. destruct cls;
      [exists "eni" | exists "ifconfig" | exists "network-manager"
       | exists "netplan" | exists "networkd"]; split; reflexivity.
  - intros name name' cls H H'. unfold names in H, H'. simpl in H, H'.
    destruct (String.eqb_spec name "eni");
      [| destruct (String.eqb_spec name "netplan");
         [| destruct (String.eqb_spec name "network-manager");
            [| destruct (String.eqb_spec name "networkd");
               [| destruct (String.eqb_spec name "ifconfig");
                  [| discriminate H]]]]];
      subst name; injection H as <-;
      (destruct (String.eqb_spec name' "eni");
       [| destruct (String.eqb_spec name' "netplan");
          [| destruct (String.eqb_spec name' "network-manager");
             [| destruct (String.eqb_spec name' "networkd");
                [| destruct (String.eqb_spec name' "ifconfig");
                   [| discriminate H']]]]]);
      subst name'; try reflexivity; discriminate H'.
Qed.

(** ** Lists in two parts *)

Section Append.

Context {A : Type}.
Variables (f : A -> M bool) (w : world).

Lemma all_app l1 l2 st :
  all f (l1 ++ l2) w st
  = (ok <- all f l1 ;; if ok then all f l2 else ret false) w st.
Proof.
  revert st. induction l1 as [| x xs IH]; intros st.
  - reflexivity.
  - cbn [app all]. unfold bind in *.
    destruct (f x w st) as [[[|] | e] s1]; [apply IH | reflexivity | reflexivity].
Qed.

Lemma next_where_app l1 l2 st :
  next_where f (l1 ++ l2) w st
  = (found <- next_where f l1 ;;
     match found with
     | Some x => ret (Some x)
     | None => next_where f l2
     end) w st.
Proof.
  revert st. induction l1 as [| x xs IH]; intros st.
  - reflexivity.
  - cbn [app next_where]. unfold bind in *.
    destruct (f x w st) as [[[|] | e] s1]; [reflexivity | apply IH | reflexivity].
Qed.

End Append.

(** X11.  The default [bring_up_interfaces] on a list in two parts is
    the call on the first part followed, if that returned true, by the
    call on the second part; if it returned false, the second part is
    left alone. *)
Theorem bring_up_interfaces_app
    (cls_bring_up_interface : string -> M bool) first second w st :
  NetworkActivator.bring_up_interfaces cls_bring_up_interface (first ++ second) w st
  = (ok <- NetworkActivator.bring_up_interfaces cls_bring_up_interface first ;;
     if ok
     then NetworkActivator.bring_up_interfaces cls_bring_up_interface second
     else ret false) w st.
Proof. unfold NetworkActivator.bring_up_interfaces. apply all_app. Qed.

Lemma names_functional priority classes classes' :
  Forall2 names priority classes -> Forall2 names priority classes' ->
  classes = classes'.
Proof.
  intros H. revert classes'.
  induction H as [| n c ns cs Hn Hns IH]; intros classes' H';
    inversion H'; subst; [reflexivity |].
  unfold names in *. f_equal; [congruence | apply IH; assumption].
Qed.

(** X14.  Priority lists compose.  Searching a list of known
    identifiers given in two parts is searching the first part and, only
    if nothing was found there, searching the second part from the state
    the first search left. *)
Theorem search_activator_app first second w st :
  forallb known (first ++ second) = true ->
  search_activator (first ++ second) w st
  = (found <- search_activator first ;;
     match found with
     | Some cls => ret (Some cls)
     | None => search_activator second
     end) w st.
Proof.
  intros Hk. pose proof Hk as Hk'. rewrite forallb_app in Hk'.
  apply andb_true_iff in Hk' as [Hk1 Hk2].
  destruct (search_activator_known _ w st Hk) as (cs & Hcs & ->).
  destruct (search_activator_known _ w st Hk1) as (cs1 & Hcs1 & Hs1).
  apply Forall2_app_inv_l in Hcs as (cs1' & cs2 & Hcs1' & Hcs2 & ->).
  rewrite (names_functional _ _ _ Hcs1' Hcs1).
  rewrite next_where_app. unfold bind. rewrite Hs1.
  destruct (next_where available cs1 w st) as [[[cls |] | e] s1]; try reflexivity.
  destruct (search_activator_known _ w s1 Hk2) as (cs2' & Hcs2' & ->).
  rewrite (names_functional _ _ _ Hcs2' Hcs2). reflexivity.
Qed.

Lemma search_activator_app_witness :
  search_activator (["eni"; "netplan"] ++ ["networkd"; "ifconfig"])
    Machines.networkd_only initial
  = (Ret (Some NetworkdActivator),
     {| trace := [EvAvailable eni false; EvAvailable netplan false;
                  EvAvailable networkd true];
        log := [] |}).
Proof.
  exact (search_activator_app ["eni"; "netplan"] ["networkd"; "ifconfig"]
           Machines.networkd_only initial eq_refl).
Defined.

(** ** Machines that do not change *)

Lemma available_stationary cls w st :
  stationary w ->
  exists e, available cls w st = (Ret (installed w cls), add_event e st).
Proof.
  intros Hw. destruct (Hw (trace st) (trace initial)) as [Ha Hwhich].
  unfold installed.
  destruct cls; simpl;
    unfold IfUpDownActivator.available, NetworkManagerActivator.available,
      NetplanActivator.available, NetworkdActivator.available,
      IfConfigActivator.available, bind, ret, module_available, subp.which, probe;
    simpl; rewrite ?Ha, ?Hwhich; eexists; reflexivity.
Qed.

Lemma next_where_stationary classes w st :
  stationary w ->
  fst (next_where available classes w st) = Ret (find (installed w) classes).
Proof.
  intros Hw. revert st. induction classes as [| c cs IH]; intros st.
  - reflexivity.
  - destruct (available_stationary c w st Hw) as [e He].
    cbn [next_where find]. rewrite (bind_Ret _ _ _ _ _ _ He).
    destruct (installed w c); [reflexivity | apply IH].
Qed.

(** X16.  On a machine where what is installed does not change during
    the search, [search_activator] on known identifiers is [find]: it
    returns the class of the first entry of the list that is installed,
    and [None] when no entry is.  The state it starts from does not
    matter. *)
Theorem search_activator_is_find priority classes w st :
  stationary w ->
  Forall2 names priority classes ->
  fst (search_activator priority w st) = Ret (find (installed w) classes).
Proof.
  intros Hw Hcs.
  assert (forallb known priority = true) as Hk.
  { clear Hw. induction Hcs as [| n c ns cs Hn Hns IH]; [reflexivity |].
    cbn [forallb]. rewrite IH.
    assert (known n = true) as ->; [| reflexivity].
    unfold names in Hn. unfold known, str_in, DEFAULT_PRIORITY. simpl in *.
    destruct (String.eqb n "eni"); [reflexivity |].
    destruct (String.eqb n "netplan"); [reflexivity |].
    destruct (String.eqb n "network-manager"); [reflexivity |].
    destruct (String.eqb n "networkd"); [reflexivity |].
    destruct (String.eqb n "ifconfig"); [reflexivity | discriminate Hn]. }
  destruct (search_activator_known _ w st Hk) as (cs & Hcs' & ->).
  rewrite (names_functional _ _ _ Hcs' Hcs).
  apply next_where_stationary, Hw.
Qed.

Lemma networkd_only_stationary : stationary Machines.networkd_only.
Proof. intros tr tr'. split; reflexivity. Qed.

Lemma search_activator_is_find_witness :
  stationary Machines.networkd_only /\
  Forall2 names ["ifconfig"; "networkd"; "eni"; "networkd"]
    [IfConfigActivator; NetworkdActivator; IfUpDownActivator; NetworkdActivator] /\
  fst (search_activator ["ifconfig"; "networkd"; "eni"; "networkd"]
         Machines.networkd_only initial)
  = Ret (Some NetworkdActivator).
Proof.
  assert (Forall2 names ["ifconfig"; "networkd"; "eni"; "networkd"]
            [IfConfigActivator; NetworkdActivator; IfUpDownActivator;
             NetworkdActivator]) as Hcs
    by (repeat constructor).
  split; [exact networkd_only_stationary |]. split; [exact Hcs |].
  exact (search_activator_is_find _ _ Machines.networkd_only initial
           networkd_only_stationary Hcs).
Defined.
